(** * tessif-examples: example energy systems and the framework contract they rely on

    The repository holds three example builders,
    [create_zero_costs_es] (basic/zero_costs_es.py) and [create_hhes_ar],
    [create_hhes_basic] (application/timeseries_comparison.py).  Each one
    reads CSV load profiles, calls the constructors of the tessif framework
    and, for the two Hamburg systems, dumps the result.

    The builders are embedded as computations in a small state-and-exception
    monad over a [World] (the CSV files, the persistent storage, the global
    random generator) and a heap of local numpy arrays.  The tessif
    constructors themselves are not part of the repository; they are
    modelled from the specification in the modules [components] and
    [energy_system]. *)

From stdpp Require Import base list strings gmap.
From Stdlib Require Import QArith.

Close Scope Q_scope.

(** ** Numbers

    Python ints and floats, and the entries of numpy arrays, are modelled as
    rationals extended with the IEEE infinities and NaN ([float("+inf")]
    occurs as a literal in the sources; numpy division by zero yields an
    infinity instead of raising).  Rounding is not modelled. *)

Inductive num : Type :=
| Fin (q : Q)
| PosInf
| NegInf
| NaN.

Coercion Fin : Q >-> num.

Definition Qsign (q : Q) : Z := Z.sgn (Qnum q).

Definition num_mul (x y : num) : num :=
  match x, y with
  | NaN, _ | _, NaN => NaN
  | Fin a, Fin b => Fin (a * b)%Q
  | Fin a, PosInf | PosInf, Fin a =>
      match Qsign a with Z0 => NaN | Zpos _ => PosInf | Zneg _ => NegInf end
  | Fin a, NegInf | NegInf, Fin a =>
      match Qsign a with Z0 => NaN | Zpos _ => NegInf | Zneg _ => PosInf end
  | PosInf, PosInf | NegInf, NegInf => PosInf
  | PosInf, NegInf | NegInf, PosInf => NegInf
  end.

(** [x == 0] on a number. *)
Definition num_is_zero (x : num) : bool :=
  match x with Fin q => Qeq_bool q 0%Q | _ => false end.

Definition num_leb (x y : num) : bool :=
  match x, y with
  | NaN, _ | _, NaN => false
  | NegInf, _ | _, PosInf => true
  | PosInf, _ | _, NegInf => false
  | Fin a, Fin b => Qle_bool a b
  end.

(** The larger of two numbers; NaN propagates, as in [np.max]. *)
Definition num_max (x y : num) : num :=
  match x, y with
  | NaN, _ | _, NaN => NaN
  | _, _ => if num_leb x y then y else x
  end.

(** ** Exceptions and results *)

Inductive error : Type :=
| ConfigurationError
| ResolutionError
| DataShapeError
| IOError
| KeyError
| ValueError
| IndexError
| ZeroDivisionError.

Inductive Result (A : Type) : Type :=
| Ok (a : A)
| Err (e : error).
Arguments Ok {A} a.
Arguments Err {A} e.

Definition is_ok {A} (r : Result A) : bool :=
  match r with Ok _ => true | Err _ => false end.

(** [1 / x] on Python scalars raises on zero ... *)
Definition py_reciprocal (x : num) : Result num :=
  match x with
  | Fin q => if Qeq_bool q 0%Q then Err ZeroDivisionError else Ok (Fin (/ q)%Q)
  | PosInf | NegInf => Ok (Fin 0%Q)
  | NaN => Ok NaN
  end.

(** ... while on numpy scalars it yields an infinity. *)
Definition np_reciprocal (x : num) : num :=
  match x with
  | Fin q => if Qeq_bool q 0%Q then PosInf else Fin (/ q)%Q
  | PosInf | NegInf => Fin 0%Q
  | NaN => NaN
  end.

(** Truthiness of an optional string: [None] and the empty string are falsy. *)
Definition truthy (s : option string) : bool :=
  match s with
  | None => false
  | Some s => negb (String.eqb s EmptyString)
  end.

(** ** namedtuples ([tessif.frused.namedtuples]) *)

Module nts.
Record MinMaxT (A : Type) : Type := MinMax { min : A; max : A }.
Arguments MinMax {A} & min max.
Arguments min {A} _.
Arguments max {A} _.

Record OnOffT : Type := OnOff { on : num; off : num }.
End nts.

(** ** pandas data frames and time indexes *)

Module pandas.
(** A parsed CSV file without its index column: the column names and the
    rows of values. *)
Record DataFrame : Type := mkDataFrame {
  columns : list string;
  rows : list (list num);
}.

(** [df.values.flatten()]: all cells in row-major order. *)
Definition values_flatten (df : DataFrame) : list num := concat (rows df).

Fixpoint index_of (c : string) (cs : list string) : option nat :=
  match cs with
  | [] => None
  | c' :: cs' => if String.eqb c' c then Some 0 else S <$> index_of c cs'
  end.

(** [df[c]]: one column by name. *)
Definition getitem (df : DataFrame) (c : string) : Result (list num) :=
  match index_of c (columns df) with
  | None => Err KeyError
  | Some j => Ok (map (fun r => default NaN (r !! j)) (rows df))
  end.

(** A [DatetimeIndex] of fixed frequency: the k-th stamp lies [k] steps
    of length [freq] after [start]. *)
Record DatetimeIndex : Type := mkDatetimeIndex {
  start : string;
  freq : string;
  stamps : list nat;
}.

Definition len (t : DatetimeIndex) : nat := length (stamps t).
End pandas.

(** ** Component records ([tessif.model.components])

    Python dictionaries with string keys are association lists, in the
    order they are written. *)

Definition dict (K V : Type) : Type := list (K * V).

Module components.
Inductive Kind : Type := SourceK | SinkK | TransformerK | StorageK | BusK.

(** The keyword arguments the example builders pass to the constructors,
    one constructor per keyword.  [expendable] is the keyword as the
    sources spell it on [est], [imel] and [imth]. *)
Inductive kwarg : Type :=
| inputs (l : list string)
| outputs (l : list string)
| input (c : string)
| output (c : string)
| flow_rates (d : dict string (nts.MinMaxT num))
| flow_costs (d : dict string num)
| flow_emissions (d : dict string num)
| timeseries (d : dict string (nts.MinMaxT (list num)))
| expandable (d : dict string bool)
| expansion_costs (d : dict string num)
| expansion_limits (d : dict string (nts.MinMaxT num))
| conversions (d : dict (string * string) num)
| capacity (x : num)
| initial_soc (x : num)
| initial_status (b : bool)
| status_inertia (o : nts.OnOffT)
| status_changing_costs (o : nts.OnOffT)
| costs_for_being_active (x : num)
| region (s : string)
| node_type (s : string)
| component (s : string)
| sector (s : string)
| carrier (s : string)
| latitude (x : num)
| longitude (x : num)
| expendable (d : dict string bool).

Record Component : Type := mkComponent {
  kind : Kind;
  uid : string;
  config : list kwarg;
}.

Definition declared_inputs (cfg : list kwarg) : list string :=
  flat_map (fun o => match o with inputs l => l | input c => [c] | _ => [] end) cfg.

Definition declared_outputs (cfg : list kwarg) : list string :=
  flat_map (fun o => match o with outputs l => l | output c => [c] | _ => [] end) cfg.

(** The commodities a configuration declares among its inputs/outputs. *)
Definition commodities (cfg : list kwarg) : list string :=
  declared_inputs cfg ++ declared_outputs cfg.

(** The commodities one per-commodity option refers to. *)
Definition referenced (o : kwarg) : list string :=
  match o with
  | flow_rates d => d.*1
  | flow_costs d => d.*1
  | flow_emissions d => d.*1
  | timeseries d => d.*1
  | expandable d => d.*1
  | expansion_costs d => d.*1
  | expansion_limits d => d.*1
  | _ => []
  end.

Definition conversions_of (cfg : list kwarg) : dict (string * string) num :=
  flat_map (fun o => match o with conversions d => d | _ => [] end) cfg.

Definition timeseries_of (cfg : list kwarg)
  : dict string (nts.MinMaxT (list num)) :=
  flat_map (fun o => match o with timeseries d => d | _ => [] end) cfg.

Definition conversion_declared (cfg : list kwarg)
    (e : string * string * num) : bool :=
  bool_decide (e.1.1 ∈ declared_inputs cfg)
  && bool_decide (e.1.2 ∈ declared_outputs cfg).

(** Modelled from the spec: the check of section 4.1 that the constructors
    of [tessif.model.components] (not part of this repository) run on a
    configuration: every commodity referenced in [flow_rates],
    [flow_costs], and so on is declared in [inputs]/[outputs], and every
    conversion maps a declared input to a declared output. *)
Definition well_declared (cfg : list kwarg) : bool :=
  forallb (fun c => bool_decide (c ∈ commodities cfg)) (flat_map referenced cfg)
  && forallb (conversion_declared cfg) (conversions_of cfg).

(** Modelled from the spec: a component constructor of
    [tessif.model.components] takes a name and a configuration and fails
    with a ConfigurationError on a configuration that is not
    [well_declared]; otherwise it returns the component record. *)
Definition construct (k : Kind) (name : string) (cfg : list kwarg)
  : Result Component :=
  if well_declared cfg
  then Ok {| kind := k; uid := name; config := cfg |}
  else Err ConfigurationError.

Definition Source := construct SourceK.
Definition Sink := construct SinkK.
Definition Transformer := construct TransformerK.
Definition Storage := construct StorageK.
Definition Bus := construct BusK.
End components.

(** ** The system container ([tessif.model.energy_system]) *)

Inductive value : Type :=
| VStr (s : string)
| VNum (x : num).

Module energy_system.
Import components.

Record EnergySystem : Type := mkEnergySystem {
  uid : option string;
  busses : list Component;
  sinks : list Component;
  sources : list Component;
  transformers : list Component;
  storages : list Component;
  timeframe : pandas.DatetimeIndex;
  global_constraints : dict string value;
}.

(** Modelled from the spec: [es.nodes] of the tessif system container (not
    part of this repository): all components grouped by kind, in the
    order the docstrings of [create_zero_costs_es] and [create_hhes_ar]
    print them: busses, sources, sinks, transformers, storages. *)
Definition nodes (es : EnergySystem) : list Component :=
  busses es ++ sources es ++ sinks es ++ transformers es ++ storages es.

(** Split ["<component>.<commodity>"] at its last dot (character 46). *)
Fixpoint split_reference (r : string) : option (string * string) :=
  match r with
  | EmptyString => None
  | String a r' =>
      match split_reference r' with
      | Some (c, k) => Some (String a c, k)
      | None => if Ascii.eqb a (Ascii.ascii_of_nat 46) then Some (EmptyString, r') else None
      end
  end.

(** A reference resolves against a set of components when it names one of
    them and a commodity that one declares among its inputs/outputs. *)
Definition resolves (comps : list Component) (r : string) : bool :=
  match split_reference r with
  | Some (c, k) =>
      existsb (fun x => String.eqb (components.uid x) c
                        && bool_decide (k ∈ commodities (config x))) comps
  | None => false
  end.

(** The references a Bus holds in its [inputs] and [outputs]. *)
Definition references (b : Component) : list string := commodities (config b).

Definition series_fit (t : pandas.DatetimeIndex) (x : Component) : bool :=
  forallb (fun e : string * nts.MinMaxT (list num) =>
             (length (nts.min e.2) =? pandas.len t)
             && (length (nts.max e.2) =? pandas.len t))
          (timeseries_of (config x)).

(** Modelled from the spec: the constructor of the tessif system container
    (not part of this repository).  It links the Bus references against
    the components it is given (section 4.2, ResolutionError), compares
    every declared time series with the timeframe (sections 4.1 and 7,
    DataShapeError) and otherwise aggregates its arguments unchanged. *)
Definition AbstractEnergySystem (uid : option string)
    (busses sinks sources transformers storages : list Component)
    (timeframe : pandas.DatetimeIndex) (global_constraints : dict string value)
  : Result EnergySystem :=
  let comps := sources ++ sinks ++ transformers ++ storages in
  if negb (forallb (fun b => forallb (resolves comps) (references b)) busses)
  then Err ResolutionError
  else if negb (forallb (series_fit timeframe) (busses ++ comps))
  then Err DataShapeError
  else Ok {| uid := uid; busses := busses; sinks := sinks;
             sources := sources; transformers := transformers;
             storages := storages; timeframe := timeframe;
             global_constraints := global_constraints |}.
End energy_system.

(** ** The world outside a builder *)

Record World : Type := mkWorld {
  (** [tessif.frused.paths.example_dir] and [write_dir] *)
  example_dir : string;
  write_dir : string;
  (** the CSV files on disk, as parsed by [pd.read_csv(_, index_col=0, sep=";")] *)
  files : gmap string pandas.DataFrame;
  (** directories a dump cannot write to *)
  write_protected : list string;
  (** what has been dumped, by (directory, filename) *)
  storage : gmap (string * string) energy_system.EnergySystem;
  (** numpy's global generator: the raw draws and how many were consumed *)
  rng_raw : nat -> Z;
  rng_pos : nat;
}.

Definition set_storage (w : World)
    (st : gmap (string * string) energy_system.EnergySystem) : World :=
  {| example_dir := example_dir w; write_dir := write_dir w; files := files w;
     write_protected := write_protected w; storage := st;
     rng_raw := rng_raw w; rng_pos := rng_pos w |}.

Definition set_rng_pos (w : World) (p : nat) : World :=
  {| example_dir := example_dir w; write_dir := write_dir w; files := files w;
     write_protected := write_protected w; storage := storage w;
     rng_raw := rng_raw w; rng_pos := p |}.

(** ** The monad of function bodies

    A body runs on the world and on a heap of numpy arrays addressed by
    position; an exception leaves the state as it was when raised. *)

Record State : Type := mkState {
  world : World;
  heap : list (list num);
}.

Definition M (A : Type) : Type := State -> Result A * State.

Definition ret {A} (a : A) : M A := fun s => (Ok a, s).

Definition bind {A B} (m : M A) (k : A -> M B) : M B :=
  fun s => match m s with
           | (Ok a, s') => k a s'
           | (Err e, s') => (Err e, s')
           end.

Definition raise {A} (e : error) : M A := fun s => (Err e, s).

(** A pure call that may raise. *)
Definition lift {A} (r : Result A) : M A :=
  fun s => (r, s).

Declare Scope py_scope.
Delimit Scope py_scope with py.
Notation "x <- m ;; k" := (bind m (fun x => k))
  (at level 100, m at next level, right associativity,
   format "'[v' x  <-  m  ;;  '/' k ']'") : py_scope.
Notation "m ;;; k" := (bind m (fun _ => k))
  (at level 100, right associativity,
   format "'[v' m  ;;;  '/' k ']'") : py_scope.

(** A called function starts with an empty heap of locals, which is dropped
    when it returns or raises. *)
Definition call {A} (body : M A) (w : World) : Result A * World :=
  let '(r, s) := body {| world := w; heap := [] |} in (r, world s).

(** ** Library calls the builders make *)

Module pd.
(** [pd.date_range(start, periods=n, freq=f)] *)
Definition date_range (start : string) (periods : nat) (freq : string)
  : pandas.DatetimeIndex :=
  {| pandas.start := start; pandas.freq := freq;
     pandas.stamps := seq 0 periods |}.

(** [pd.read_csv(path, index_col=0, sep=";")]: a missing file is an
    IOError. *)
Definition read_csv (path : string) : M pandas.DataFrame :=
  fun s => match files (world s) !! path with
           | Some df => (Ok df, s)
           | None => (Err IOError, s)
           end.
End pd.

Module os_path.
Fixpoint ends_with_slash (a : string) : bool :=
  match a with
  | EmptyString => false
  | String c EmptyString => Ascii.eqb c (Ascii.ascii_of_nat 47)
  | String _ a' => ends_with_slash a'
  end.

Definition join2 (a b : string) : string :=
  if String.prefix "/" b then b
  else if String.eqb a EmptyString || ends_with_slash a then a +:+ b
  else a +:+ "/" +:+ b.

(** [os.path.join(a, *ps)] *)
Definition join (a : string) (ps : list string) : string :=
  fold_left join2 ps a.
End os_path.

(** Python's builtin [max] and [np.max] of a sequence: a ValueError on an
    empty one. *)
Definition max_of (l : list num) : Result num :=
  match l with
  | [] => Err ValueError
  | x :: l' => Ok (fold_left num_max l' x)
  end.

Module np.
Definition max := max_of.

Definition ones (n : nat) : list num := repeat (Fin 1%Q) n.

(** array * scalar *)
Definition scale (a : list num) (x : num) : list num :=
  map (fun y => num_mul y x) a.

(** array * array, with numpy's broadcasting of a one-element operand *)
Definition multiply (a b : list num) : Result (list num) :=
  match a, b with
  | [x], _ => Ok (map (num_mul x) b)
  | _, [y] => Ok (scale a y)
  | _, _ => if length a =? length b
            then Ok (zip_with num_mul a b) else Err ValueError
  end.

(** *** Arrays as objects on the heap *)
Definition ndarray : Type := nat.

Definition new (l : list num) : M ndarray :=
  fun s => (Ok (length (heap s)),
            {| world := world s; heap := heap s ++ [l] |}).

Definition read (a : ndarray) : M (list num) :=
  fun s => match heap s !! a with
           | Some l => (Ok l, s)
           | None => (Err IndexError, s)
           end.

(** [np.array(a)] copies its argument into a new array. *)
Definition array (a : ndarray) : M ndarray :=
  (l <- read a ;; new l)%py.

Definition len (a : ndarray) : M nat :=
  (l <- read a ;; ret (length l))%py.

(** [np.max(a)] of an array object ([np.amax] is numpy's other name for it) *)
Definition amax (a : ndarray) : M num :=
  (l <- read a ;; lift (max l))%py.

(** [a[i]] *)
Definition getitem (a : ndarray) (i : nat) : M num :=
  (l <- read a ;;
   match l !! i with Some x => ret x | None => raise IndexError end)%py.

(** [a[i] = x] *)
Definition setitem (a : ndarray) (i : nat) (x : num) : M unit :=
  fun s => match heap s !! a with
           | Some l =>
               if bool_decide (i < length l)
               then (Ok tt, {| world := world s;
                               heap := <[a := <[i := x]> l]> (heap s) |})
               else (Err IndexError, s)
           | None => (Err IndexError, s)
           end.

Module random.
(** [np.random.randint(low, high, size)]: [size] draws from the global
    generator, each mapped into [[low, high)]. *)
Definition randint (low high : Z) (size : nat) : M (list num) :=
  fun s =>
    if bool_decide (low < high)%Z
    then
      let w := world s in
      (Ok (map (fun k => Fin (inject_Z (low + rng_raw w (rng_pos w + k)
                                          `mod` (high - low))))
               (seq 0 size)),
       {| world := set_rng_pos w (rng_pos w + size); heap := heap s |})
    else (Err ValueError, s).
End random.
End np.

(** [tessif.frused.paths.example_dir] *)
Definition paths_example_dir : M string :=
  fun s => (Ok (example_dir (world s)), s).

(** [for x in l: body] *)
Fixpoint for_each {A} (l : list A) (body : A -> M unit) : M unit :=
  match l with
  | [] => ret tt
  | x :: l' => bind (body x) (fun _ => for_each l' body)
  end.

Definition range (n : nat) : list nat := seq 0 n.

(** Modelled from the spec: [AbstractEnergySystem.dump] of tessif (not part
    of this repository).  It writes the system to persistent storage under
    [directory]/[filename], with [write_dir]/tsf as the directory when none
    is given, and fails with an IOError when it cannot write there; the
    system itself is left as it is. *)
Definition dump (es : energy_system.EnergySystem)
    (directory : option string) (filename : string) : M unit :=
  fun s =>
    let w := world s in
    let dir := default (os_path.join (write_dir w) ["tsf"]) directory in
    if bool_decide (dir ∈ write_protected w)
    then (Err IOError, s)
    else (Ok tt, {| world := set_storage w (<[(dir, filename) := es]> (storage w));
                    heap := heap s |}).

(** [if not filename: filename = name] *)
Definition if_not (filename : option string) (name : string) : string :=
  match filename with
  | Some f => if truthy filename then f else name
  | None => name
  end.

(** ** The example builders *)

Import components.
Local Open Scope string_scope.
Local Open Scope Q_scope.
Local Open Scope py_scope.

(* Literals are read at the type a keyword expects, so that [1] is a [num]. *)
#[local] Arguments pair {A B} & _ _.
#[local] Arguments cons {A} & _ _.

(** *** basic/zero_costs_es.py *)

(** [create_zero_costs_es] up to and including the construction of
    [explicit_es]. *)
Definition zero_costs_explicit_es : M energy_system.EnergySystem :=
  let timeframe := pd.date_range "7/13/1990" 4 "H" in

  emitting_source <- lift (components.Source "Emitting Source"
    [ outputs ["electricity"];
      flow_emissions [("electricity", 1)] ]) ;;

  capped_renewable <- lift (components.Source "Capped Renewable"
    [ outputs ["electricity"];
      flow_rates [("electricity", nts.MinMax 0 2)];
      expandable [("electricity", true)];
      expansion_limits [("electricity", nts.MinMax 2 4)] ]) ;;

  let uncapped_min : list num := [1; 2; 3; 1] in
  let uncapped_max : list num := [1; 2; 3; 1] in

  max_uncapped <- lift (max_of uncapped_max) ;;
  uncapped_renewable <- lift (components.Source "Uncapped Renewable"
    [ outputs ["electricity"];
      flow_rates [("electricity", nts.MinMax 0 1)];
      expandable [("electricity", true)];
      timeseries [("electricity", nts.MinMax uncapped_min uncapped_max)];
      expansion_limits [("electricity", nts.MinMax max_uncapped PosInf)] ]) ;;

  electricity_line <- lift (components.Bus "Powerline"
    [ inputs [ "Emitting Source.electricity";
               "Capped Renewable.electricity";
               "Uncapped Renewable.electricity" ];
      outputs ["Demand.electricity"] ]) ;;

  demand <- lift (components.Sink "Demand"
    [ inputs ["electricity"];
      flow_rates [("electricity", nts.MinMax 10 10)] ]) ;;

  let global_constraints := [("emissions", VNum 8)] in

  lift (energy_system.AbstractEnergySystem
    (Some "Zero Costs Example")
    (* busses *) [electricity_line]
    (* sinks *) [demand]
    (* sources *) [emitting_source; capped_renewable; uncapped_renewable]
    (* transformers *) []
    (* storages *) []
    timeframe
    global_constraints).

Definition create_zero_costs_es (directory filename : option string)
  : World -> Result energy_system.EnergySystem * World :=
  call (
    explicit_es <- zero_costs_explicit_es ;;
    ret explicit_es).

(** *** data/examples/application/timeseries_comparison.py

    [economics.annuity(capex, n, wacc)] belongs to oemof; the builders only
    store what it returns, so it is a parameter here. *)

Section Hamburg.
Variable annuity : Q -> nat -> Q -> num.

(** Steps 2 to 4 of [create_hhes_ar]: the timeframe, the load profiles,
    the components and the system.  The profiles are never written to,
    so they are plain sequences here. *)
Definition hhes_ar_explicit_es (periods : nat)
  : M energy_system.EnergySystem :=
  let timeframe := pd.date_range "2019-01-01" periods "H" in

  example_dir <- paths_example_dir ;;
  let d := os_path.join example_dir ["data"; "tsf"; "load_profiles"] in

  (* solar: *)
  pv_HH <- pd.read_csv (os_path.join d ["solar_HH_2019.csv"]) ;;
  let pv_HH := take periods (pandas.values_flatten pv_HH) in
  max_pv <- lift (np.max pv_HH) ;;

  (* wind onshore: *)
  wo_HH <- pd.read_csv (os_path.join d ["wind_HH_2019.csv"]) ;;
  let wo_HH := take periods (pandas.values_flatten wo_HH) in
  max_wo <- lift (np.max wo_HH) ;;

  (* electricity demand: *)
  de_HH <- pd.read_csv (os_path.join d ["el_demand_HH_2019.csv"]) ;;
  de_HH <- lift (pandas.getitem de_HH "Last (MW)") ;;
  let de_HH := take periods de_HH in
  max_de <- lift (np.max de_HH) ;;

  (* heat demand: *)
  th_HH <- pd.read_csv (os_path.join d ["th_demand_HH_2019.csv"]) ;;
  th_HH <- lift (pandas.getitem th_HH "actual_total_load") ;;
  let th_HH := take periods th_HH in
  max_th <- lift (np.max th_HH) ;;

  let in_stat := false in
  let cfba : num := 0 in

  let global_constraints :=
    [ ("name", VStr "2019");
      ("emissions", VNum PosInf);
      ("resources", VNum PosInf) ] in

  gass <- lift (components.Source "gas supply"
    [ outputs ["gas"];
      region "HH";
      node_type "gas_supply";
      component "source";
      sector "coupled";
      carrier "gas" ]) ;;

  chp1 <- lift (components.Transformer "gas power plant"
    [ inputs ["gas"];
      outputs ["electricity"; "hot_water"];
      conversions [ (("gas", "electricity"), 0.3773);
                    (("gas", "hot_water"), 0.3) ];
      latitude 53.51;
      longitude 9.94985;
      region "HH";
      node_type "HKW ADM";
      component "transformer";
      sector "coupled";
      carrier "gas";
      flow_rates [ ("gas", nts.MinMax 0 PosInf);
                   ("electricity", nts.MinMax 0 PosInf);
                   ("hot_water", nts.MinMax 0 PosInf) ];
      flow_costs [("gas", 0); ("electricity", 90); ("hot_water", 21.6)];
      flow_emissions [("gas", 0.2); ("electricity", 0); ("hot_water", 0)];
      initial_status in_stat;
      status_inertia (nts.OnOff 0 1);
      status_changing_costs (nts.OnOff 24 0);
      costs_for_being_active cfba ]) ;;

  hp1 <- lift (components.Transformer "heat power plant"
    [ inputs ["gas"];
      outputs ["hot_water"];
      conversions [ (("waste", "hot_water"), 0.96666) ];
      latitude 53.54106052;
      longitude 9.99590096;
      region "HH";
      node_type "Heizwerk Hafencity";
      component "transformer";
      sector "heat";
      carrier "gas";
      flow_rates [ ("gas", nts.MinMax 0 PosInf);
                   ("hot_water", nts.MinMax 0 348) ];
      flow_costs [("gas", 0); ("hot_water", 20)];
      flow_emissions [("gas", 0.0); ("hot_water", 0.2)];
      expandable [("gas", false); ("hot_water", true)];
      expansion_costs [("gas", 0); ("hot_water", 0)];
      expansion_limits [ ("gas", nts.MinMax 0 PosInf);
                         ("hot_water", nts.MinMax 348 PosInf) ] ]) ;;

  pv1 <- lift (components.Source "solar"
    [ outputs ["electricity"];
      region "HH";
      node_type "renewable";
      component "source";
      sector "power";
      carrier "solar";
      flow_rates [("electricity", nts.MinMax 0 max_pv)];
      flow_costs [("electricity", 74)];
      flow_emissions [("electricity", 0)];
      timeseries [("electricity", nts.MinMax pv_HH pv_HH)];
      expandable [("electricity", true)];
      expansion_costs [("electricity", annuity 1000000 20 0.05)];
      expansion_limits [("electricity", nts.MinMax max_pv PosInf)] ]) ;;

  won1 <- lift (components.Source "wind"
    [ outputs ["electricity"];
      region "HH";
      node_type "renewable";
      component "source";
      sector "power";
      carrier "wind";
      flow_rates [("electricity", nts.MinMax 0 max_wo)];
      flow_costs [("electricity", 61)];
      flow_emissions [("electricity", 0.007)];
      timeseries [("electricity", nts.MinMax wo_HH wo_HH)];
      expandable [("electricity", true)];
      expansion_costs [("electricity", annuity 1750000 20 0.05)];
      expansion_limits [("electricity", nts.MinMax max_wo PosInf)] ]) ;;

  est <- lift (components.Storage "electrical storage"
    [ input "electricity";
      output "electricity";
      capacity 1;
      initial_soc 1;
      region "HH";
      sector "power";
      carrier "electricity";
      component "storage";
      flow_rates [("electricity", nts.MinMax 0 PosInf)];
      flow_costs [("electricity", 20)];
      flow_emissions [("electricity", 0)];
      expendable [("capacity", true); ("electricity", false)];
      expansion_costs [("capacity", annuity 1000000 10 0.05)] ]) ;;

  p2h <- lift (components.Transformer "power to heat"
    [ inputs ["electricity"];
      outputs ["hot_water"];
      conversions [ (("electricity", "hot_water"), 0.99) ];
      latitude 53.55912;
      longitude 9.97148;
      region "HH";
      node_type "power2heat";
      component "transformer";
      sector "heat";
      carrier "hot_water";
      flow_rates [ ("electricity", nts.MinMax 0 PosInf);
                   ("hot_water", nts.MinMax 0 45) ];
      flow_costs [("electricity", 0); ("hot_water", 0)];
      flow_emissions [("electricity", 0); ("hot_water", 0)];
      expandable [("electricity", false); ("hot_water", true)];
      expansion_costs [("hot_water", annuity 200000 30 0.05)];
      expansion_limits [("hot_water", nts.MinMax 45 200)] ]) ;;

  imel <- lift (components.Source "imported el"
    [ outputs ["electricity"];
      region "HH";
      node_type "import";
      component "source";
      sector "power";
      carrier "electricity";
      flow_costs [("electricity", 999)];
      flow_emissions [("electricity", 0.401)];
      expendable [("electricity", true)];
      expansion_costs [("electricity", 999999999)] ]) ;;

  imth <- lift (components.Source "imported th"
    [ outputs ["hot_water"];
      region "HH";
      node_type "import";
      component "source";
      sector "heat";
      carrier "hot_water";
      flow_costs [("hot_water", 999)];
      flow_emissions [("hot_water", 0.1)];
      expendable [("hot_water", true)];
      expansion_costs [("hot_water", 999999999)] ]) ;;

  demand_el <- lift (components.Sink "demand el"
    [ inputs ["electricity"];
      region "HH";
      node_type "demand";
      component "sink";
      sector "power";
      carrier "electricity";
      flow_rates [("electricity", nts.MinMax 0 max_de)];
      timeseries [("electricity", nts.MinMax de_HH de_HH)] ]) ;;

  demand_th <- lift (components.Sink "demand th"
    [ inputs ["hot_water"];
      region "HH";
      node_type "demand";
      component "sink";
      sector "heat";
      carrier "hot_water";
      flow_rates [("hot_water", nts.MinMax 0 max_th)];
      timeseries [("hot_water", nts.MinMax th_HH th_HH)] ]) ;;

  excess_el <- lift (components.Sink "excess el"
    [ inputs ["electricity"];
      region "HH";
      node_type "excess";
      component "sink";
      sector "power";
      carrier "electricity" ]) ;;

  excess_th <- lift (components.Sink "excess th"
    [ inputs ["hot_water"];
      region "HH";
      node_type "excess";
      component "sink";
      sector "heat";
      carrier "hot_water" ]) ;;

  gas_pipeline <- lift (components.Bus "gas pipeline"
    [ region "HH";
      node_type "gas_pipeline";
      component "bus";
      sector "coupled";
      carrier "gas";
      inputs ["gas supply.gas"];
      outputs ["gas power plant.gas"; "chp2.gas"; "heat power plant.gas"] ]) ;;

  powerline <- lift (components.Bus "powerline"
    [ region "HH";
      node_type "powerline";
      component "bus";
      sector "power";
      carrier "electricity";
      inputs [ "gas power plant.electricity";
               "solar.electricity";
               "wind.electricity";
               "imported el.electricity";
               "electrical storage.electricity" ];
      outputs [ "demand el.electricity";
                "excess el.electricity";
                "electrical storage.electricity";
                "power to heat.electricity" ] ]) ;;

  district_heating <- lift (components.Bus "district heating pipeline"
    [ region "HH";
      node_type "district_heating_pipeline";
      component "bus";
      sector "heat";
      carrier "hot_water";
      inputs [ "gas power plant.hot_water";
               "imported th.hot_water";
               "power to heat.hot_water";
               "heat power plant.hot_water" ];
      outputs [ "demand th.hot_water";
                "excess th.hot_water" ] ]) ;;

  lift (energy_system.AbstractEnergySystem
    (Some "Energy System Hamburg")
    (* busses *) [gas_pipeline; powerline; district_heating]
    (* sinks *) [demand_el; demand_th; excess_el; excess_th]
    (* sources *) [gass; pv1; won1; imel; imth]
    (* transformers *) [chp1; hp1; p2h]
    (* storages *) [est]
    timeframe
    global_constraints).

(** Step 5 of [create_hhes_ar]: store the energy system. *)
Definition hhes_ar_store (explicit_es : energy_system.EnergySystem)
    (directory filename : option string) : M unit :=
  let filename := if_not filename "hhes.tsf" in
  dump explicit_es directory filename.

Definition create_hhes_ar (periods : nat) (directory filename : option string)
  : World -> Result energy_system.EnergySystem * World :=
  call (
    explicit_es <- hhes_ar_explicit_es periods ;;
    hhes_ar_store explicit_es directory filename ;;;
    ret explicit_es).
(** Module level: [periods = 100]. *)
Definition periods : nat := 100.

(** Module level: [RANDTS = np.random.randint(300, 400, periods)], drawn when
    the module is imported. *)
Definition RANDTS : M (list num) := np.random.randint 300 400 periods.

(** [norm(maximum, minimum=0, period=periods, ones=np.ones(periods), t=None)] *)
Definition norm (maximum minimum : Z) (period : nat) (ones : list num)
    (t : option (list num)) : M (list num) :=
  inv <- lift (py_reciprocal (Fin (inject_Z maximum))) ;;
  let f := np.scale ones inv in
  match t with
  | None =>
      ts <- np.random.randint minimum maximum period ;;
      pmax <- lift (np.multiply ts f) ;;
      ret pmax
  | Some t =>
      let ts := t in
      pmax <- lift (np.multiply ts f) ;;
      ret pmax
  end.

(** The loop of [create_hhes_basic] over [range(len(pv_HH) - 1)] that
    writes the normalized solar series into [pv_norm]. *)
Definition pv_normalization (pv_HH pv_norm : np.ndarray) (max_pv : num)
  : M unit :=
  n <- np.len pv_HH ;;
  for_each (range (n - 1)) (fun i =>
    x <- np.getitem pv_HH i ;;
    if num_is_zero x
    then ret tt
    else
      x <- np.getitem pv_HH i ;;
      np.setitem pv_norm i (num_mul x (np_reciprocal max_pv))).

(** [create_hhes_basic] up to and including the construction of
    [explicit_es], with the normalization loop as a parameter.  [pv_HH] and
    [pv_norm] are array objects on the heap; a component record holds a
    series as it is when the record is constructed (the builder does not
    write to any array after that). *)
Definition hhes_basic_explicit_es_with
    (normalization : np.ndarray -> np.ndarray -> num -> M unit)
    (em_limit : num) (period : nat) (filename : option string)
  : M energy_system.EnergySystem :=
  let timeframe := pd.date_range "1/1/2019" period "H" in

  example_dir <- paths_example_dir ;;
  let d := os_path.join example_dir ["data"; "tsf"; "load_profiles"] in

  de_HH <- pd.read_csv (os_path.join d ["el_demand_HH_2019.csv"]) ;;
  de_HH <- lift (pandas.getitem de_HH "Last (MW)") ;;
  let de_HH := take periods de_HH in
  (* Normalization *)
  max_de <- lift (np.max de_HH) ;;
  let de_HH_norm := np.scale de_HH (np_reciprocal max_de) in

  pv_HH <- pd.read_csv (os_path.join d ["solar_HH_2019.csv"]) ;;
  pv_HH <- np.new (take period (pandas.values_flatten pv_HH)) ;;
  (* Normalization *)
  max_pv <- np.amax pv_HH ;;
  pv_norm <- np.array pv_HH ;;

  wo_HH <- pd.read_csv (os_path.join d ["wind_HH_2019.csv"]) ;;
  let wo_HH := take periods (pandas.values_flatten wo_HH) in
  max_wo <- lift (np.max wo_HH) ;;

  normalization pv_HH pv_norm max_pv ;;;

  BELECTRICITY <- lift (components.Bus "powerline"
    [ region "HH";
      sector "Power";
      node_type "AC-Bus";
      component "bus";
      carrier "electricity";
      inputs [ "gas power plant.electricity";
               "imported electricity.electricity";
               "solar.electricity";
               "wind.electricity" ];
      outputs [ "demand.electricity";
                "excess.electricity" ] ]) ;;

  let global_constraints :=
    [ ("name", VStr "hhes_basic");
      ("emissions", VNum em_limit);
      ("resources", VNum PosInf) ] in

  DEMAND <- lift (components.Sink "demand"
    [ region "HH";
      node_type "DEMAND";
      component "sink";
      carrier "electricity";
      flow_rates [("electricity", nts.MinMax 0 max_de)];
      timeseries [("electricity", nts.MinMax de_HH de_HH)];
      inputs ["electricity"] ]) ;;

  EXCESS <- lift (components.Sink "excess"
    [ region "HH";
      node_type "DEMAND";
      component "sink";
      carrier "electricity";
      inputs ["electricity"] ]) ;;

  WIND <- lift (components.Source "wind"
    [ outputs ["electricity"];
      region "HH";
      node_type "renewable";
      component "source";
      sector "power";
      carrier "wind";
      flow_rates [("electricity", nts.MinMax 0 max_wo)];
      flow_costs [("electricity", 8)];
      flow_emissions [("electricity", 0.007)];
      timeseries [("electricity", nts.MinMax wo_HH wo_HH)];
      expandable [("electricity", true)];
      expansion_costs [("electricity", annuity 1750000 20 0.05)];
      expansion_limits [("electricity", nts.MinMax max_wo PosInf)] ]) ;;

  GAS_SUPPLY <- lift (components.Source "GAS_SUPPLY"
    [ outputs ["gas"];
      region "HH";
      node_type "GAS_SUPPLY";
      component "source";
      sector "coupled";
      carrier "gas" ]) ;;

  GAS_PIPELINE <- lift (components.Bus "GAS_PIPELINE"
    [ region "HH";
      node_type "GAS_PIPELINE";
      component "bus";
      sector "coupled";
      carrier "gas";
      inputs ["GAS_SUPPLY.gas"];
      outputs ["GAS_POWERPLANT.gas"] ]) ;;

  pv_HH_now <- np.read pv_HH ;;
  SOLAR <- lift (components.Source "solar"
    [ outputs ["electricity"];
      region "HH";
      sector "Power";
      carrier "electricity";
      component "source";
      node_type "renewable";
      flow_rates [("electricity", nts.MinMax 0 max_pv)];
      flow_costs [("electricity", 20)];
      flow_emissions [("electricity", 0)];
      timeseries [("electricity", nts.MinMax pv_HH_now pv_HH_now)];
      expandable [("electricity", true)];
      expansion_costs [("electricity", annuity 10000 20 0.05)];
      expansion_limits [("electricity", nts.MinMax 0 PosInf)] ]) ;;

  GAS_POWERPLANT <- lift (components.Transformer "gas power plant"
    [ inputs ["gas"];
      outputs ["electricity"];
      conversions [ (("gas", "electricity"), 0.4075) ];
      region "HH";
      node_type "GAS_POWERPLANT";
      component "transformer";
      sector "coupled";
      carrier "gas";
      flow_rates [ ("gas", nts.MinMax 0 PosInf);
                   ("electricity", nts.MinMax 0 1000) ];
      flow_costs [("gas", 10); ("electricity", 30)];
      flow_emissions [("gas", 0.2); ("electricity", 0)];
      initial_status false;
      status_inertia (nts.OnOff 0 7);
      status_changing_costs (nts.OnOff 30 0);
      costs_for_being_active 0 ]) ;;

  ELECTRICITY_IMPORT <- lift (components.Source "imported electricity"
    [ outputs ["electricity"];
      region "HH";
      node_type "EL_IMPORT";
      component "source";
      carrier "electricity";
      flow_rates [("electricity", nts.MinMax 0 PosInf)];
      flow_costs [("electricity", 9999)];
      flow_emissions [("electricity", 0.45)] ]) ;;

  lift (energy_system.AbstractEnergySystem
    filename
    (* busses *) [BELECTRICITY]
    (* sinks *) [DEMAND; EXCESS]
    (* sources *) [ELECTRICITY_IMPORT; SOLAR; WIND]
    (* transformers *) [GAS_POWERPLANT]
    (* storages *) []
    timeframe
    global_constraints).

Definition hhes_basic_explicit_es :=
  hhes_basic_explicit_es_with pv_normalization.

(** The last two statements of [create_hhes_basic] before its return. *)
Definition hhes_basic_store (explicit_es : energy_system.EnergySystem)
    (directory filename : option string) : M unit :=
  let filename := if_not filename "hhes_basic.tsf" in
  dump explicit_es directory filename.

Definition create_hhes_basic_with
    (normalization : np.ndarray -> np.ndarray -> num -> M unit)
    (em_limit : num) (period : nat) (directory filename : option string)
  : World -> Result energy_system.EnergySystem * World :=
  call (
    explicit_es <- hhes_basic_explicit_es_with normalization
                     em_limit period filename ;;
    hhes_basic_store explicit_es directory filename ;;;
    ret explicit_es).

(** [create_hhes_basic(em_limit=99999999999, period=periods, directory=None,
    filename=None)] *)
Definition create_hhes_basic :=
  create_hhes_basic_with pv_normalization.
End Hamburg.

(** *** Test data *)

Definition profile (n : nat) (column : string) (f : nat -> Q) : pandas.DataFrame :=
  {| pandas.columns := [column];
     pandas.rows := map (fun k => [Fin (f k)]) (seq 0 n) |}.

(** A world whose four load profiles have [n] rows each. *)
Definition demo_world (n : nat) : World :=
  {| example_dir := "examples";
     write_dir := "write";
     files :=
       {[ "examples/data/tsf/load_profiles/solar_HH_2019.csv" :=
            profile n "solar" (fun k => inject_Z (Z.of_nat (k mod 7)));
          "examples/data/tsf/load_profiles/wind_HH_2019.csv" :=
            profile n "wind" (fun k => inject_Z (Z.of_nat (k mod 5 + 1)));
          "examples/data/tsf/load_profiles/el_demand_HH_2019.csv" :=
            profile n "Last (MW)" (fun k => inject_Z (Z.of_nat (1000 + k)));
          "examples/data/tsf/load_profiles/th_demand_HH_2019.csv" :=
            profile n "actual_total_load" (fun k => inject_Z (Z.of_nat (500 + k))) ]};
     write_protected := [];
     storage := ∅;
     rng_raw := fun k => Z.of_nat (3 * k + 1);
     rng_pos := 0 |}.

(** oemof's annuity formula, used to run the builders on test data. *)
Definition demo_annuity (capex : Q) (n : nat) (wacc : Q) : num :=
  Fin (Qred (capex * (wacc * (1 + wacc) ^ Z.of_nat n)
             / ((1 + wacc) ^ Z.of_nat n - 1))).

(** A call of one of the three example builders. *)
Inductive example_call : Type :=
| zero_costs_es (directory filename : option string)
| hhes_ar (periods : nat) (directory filename : option string)
| hhes_basic (em_limit : num) (period : nat) (directory filename : option string).

Definition run_example (annuity : Q -> nat -> Q -> num) (c : example_call)
  : World -> Result energy_system.EnergySystem * World :=
  match c with
  | zero_costs_es d f => create_zero_costs_es d f
  | hhes_ar periods d f => create_hhes_ar annuity periods d f
  | hhes_basic em_limit period d f => create_hhes_basic annuity em_limit period d f
  end.

(** The part of a call that constructs [explicit_es]. *)
Definition explicit_es_of (annuity : Q -> nat -> Q -> num) (c : example_call)
  : M energy_system.EnergySystem :=
  match c with
  | zero_costs_es _ _ => zero_costs_explicit_es
  | hhes_ar periods _ _ => hhes_ar_explicit_es annuity periods
  | hhes_basic em_limit period _ f =>
      hhes_basic_explicit_es annuity em_limit period f
  end.

(** ** Properties of a constructed system *)

Import energy_system.

(** The components Bus references are linked against. *)
Definition linkable (es : EnergySystem) : list Component :=
  sources es ++ sinks es ++ transformers es ++ storages es.

(** A reference is resolved in a system: it reads
    ["<component>.<commodity>"], the system has a component of that name,
    and that component declares the commodity among its inputs/outputs. *)
Definition resolved (es : EnergySystem) (r : string) : Prop :=
  exists (c k : string) (x : Component),
    r = c +:+ "." +:+ k
    /\ x ∈ linkable es
    /\ components.uid x = c
    /\ k ∈ commodities (config x).

Definition references_resolved (es : EnergySystem) : Prop :=
  forall b r, b ∈ busses es -> r ∈ references b -> resolved es r.

(** Every declared time series has one row per time step. *)
Definition series_match_timeframe (es : EnergySystem) : Prop :=
  forall x c mm,
    x ∈ nodes es ->
    (c, mm) ∈ timeseries_of (config x) ->
    length (nts.min mm) = pandas.len (timeframe es)
    /\ length (nts.max mm) = pandas.len (timeframe es).

(** The value a global constraint is stored with. *)
Definition constraint (es : EnergySystem) (name : string) : option value :=
  snd <$> find (fun e => String.eqb (fst e) name) (global_constraints es).

(** The emissions a source declares for a commodity. *)
Definition emits (x : Component) : bool :=
  existsb (fun o => match o with
                    | flow_emissions d =>
                        existsb (fun e => negb (num_is_zero (snd e))) d
                    | _ => false
                    end) (config x).

(** The load profiles a Hamburg builder reads, given the example directory. *)
Definition load_profiles (dir : string) : list string :=
  let d := os_path.join dir ["data"; "tsf"; "load_profiles"] in
  [ os_path.join d ["solar_HH_2019.csv"];
    os_path.join d ["wind_HH_2019.csv"];
    os_path.join d ["el_demand_HH_2019.csv"];
    os_path.join d ["th_demand_HH_2019.csv"] ].

(** Two worlds hold the same inputs of the builders: the same example
    directory and the same contents of the load profiles in it. *)
Definition same_inputs (w1 w2 : World) : Prop :=
  example_dir w1 = example_dir w2
  /\ forall p, p ∈ load_profiles (example_dir w1) -> files w1 !! p = files w2 !! p.

(** The directory a dump writes to. *)
Definition target_directory (w : World) (directory : option string) : string :=
  default (os_path.join (write_dir w) ["tsf"]) directory.

(** The filename a builder dumps under when it is given none. *)
Definition default_filename (c : example_call) : option string :=
  match c with
  | zero_costs_es _ _ => None
  | hhes_ar _ _ _ => Some "hhes.tsf"
  | hhes_basic _ _ _ _ => Some "hhes_basic.tsf"
  end.

Definition directory_of (c : example_call) : option string :=
  match c with
  | zero_costs_es d _ | hhes_ar _ d _ | hhes_basic _ _ d _ => d
  end.

Definition filename_of (c : example_call) : option string :=
  match c with
  | zero_costs_es _ f | hhes_ar _ _ f | hhes_basic _ _ _ f => f
  end.

(** A system is assembled when the constructor of the container returned it. *)
Definition assembled (es : EnergySystem) : Prop :=
  exists u b si so tr st tf gc,
    AbstractEnergySystem u b si so tr st tf gc = Ok es.

(** ** Reasoning about bodies *)

(** Every value a body returns satisfies [P]. *)
Definition post {A} (m : M A) (P : A -> Prop) : Prop :=
  forall s a s', m s = (Ok a, s') -> P a.

(** A body leaves the world as it found it. *)
Definition reads_only {A} (m : M A) : Prop :=
  forall s, world (snd (m s)) = world s.

(** From related states a body returns (or raises) the same and ends in
    related states. *)
Definition respects {A} (R : State -> State -> Prop) (m : M A) : Prop :=
  forall s1 s2, R s1 s2 ->
    fst (m s1) = fst (m s2) /\ R (snd (m s1)) (snd (m s2)).

(** Equal heaps over worlds that hold the same inputs under [dir]. *)
Definition same_inputs_at (dir : string) (s1 s2 : State) : Prop :=
  heap s1 = heap s2
  /\ example_dir (world s1) = dir
  /\ example_dir (world s2) = dir
  /\ forall p, p ∈ load_profiles dir ->
       files (world s1) !! p = files (world s2) !! p.

(** The same world and the same array [a], whatever else is on the heap. *)
Definition same_array (a : np.ndarray) (s1 s2 : State) : Prop :=
  world s1 = world s2 /\ heap s1 !! a = heap s2 !! a.


(** The call [create_hhes_basic()] with every argument at its default. *)
Definition hhes_basic_default : example_call :=
  hhes_basic 99999999999 periods None None.

(** The solar load profile under an example directory. *)
Definition solar_profile (dir : string) : string :=
  os_path.join (os_path.join dir ["data"; "tsf"; "load_profiles"])
               ["solar_HH_2019.csv"].

(** The demand and wind load profiles under an example directory. *)
Definition demand_profile (dir : string) : string :=
  os_path.join (os_path.join dir ["data"; "tsf"; "load_profiles"])
               ["el_demand_HH_2019.csv"].

Definition wind_profile (dir : string) : string :=
  os_path.join (os_path.join dir ["data"; "tsf"; "load_profiles"])
               ["wind_HH_2019.csv"].

(** The series a component declares for a commodity. *)
Definition series_of (x : Component) (c : string)
  : option (nts.MinMaxT (list num)) :=
  snd <$> find (fun e => String.eqb (fst e) c) (timeseries_of (config x)).



(** *** More test data *)

(** A world without any load profile. *)
Definition bare_world : World :=
  {| example_dir := "examples";
     write_dir := "write";
     files := ∅;
     write_protected := [];
     storage := ∅;
     rng_raw := fun k => Z.of_nat (3 * k + 1);
     rng_pos := 0 |}.

(** A world whose demand profile has no column "Last (MW)". *)
Definition misnamed_world : World :=
  {| example_dir := "examples";
     write_dir := "write";
     files :=
       {[ "examples/data/tsf/load_profiles/el_demand_HH_2019.csv" :=
            profile 3 "load" (fun k => inject_Z (Z.of_nat k)) ]};
     write_protected := [];
     storage := ∅;
     rng_raw := fun k => Z.of_nat (3 * k + 1);
     rng_pos := 0 |}.

(** A state with a three-entry solar series and its copy on the heap. *)
Definition two_arrays : State :=
  {| world := bare_world;
     heap := [ [Fin 3; Fin 0; Fin 6]; [Fin 3; Fin 0; Fin 6] ] |}.

Close Scope Q_scope.

(** ** The framework contract *)

Section Contract.
Implicit Types (cfg : list kwarg) (k : Kind) (name : string).

Lemma construct_ok k name cfg x :
  construct k name cfg = Ok x ->
  well_declared cfg = true /\ x = mkComponent k name cfg.
Proof.
  unfold construct. destruct (well_declared cfg); intros H; inversion H; auto.
Qed.




End Contract.

(** *** Linking and shapes in an assembled system *)

Section Assembly.
Implicit Types (es : EnergySystem) (r : string).

Lemma split_reference_app r c k :
  split_reference r = Some (c, k) -> r = c +:+ "." +:+ k.
Proof.
  revert c k. induction r as [|a r IH]; intros c k H; simpl in H.
  - discriminate.
  - destruct (split_reference r) as [[c' k']|] eqn:E.
    + inversion H; subst. rewrite (IH c' k eq_refl) at 1. reflexivity.
    + destruct (Ascii.eqb a (Ascii.ascii_of_nat 46)) eqn:Ea; [|discriminate].
      apply Ascii.eqb_eq in Ea. inversion H; subst. reflexivity.
Qed.

Lemma resolves_sound (comps : list Component) r :
  resolves comps r = true ->
  exists c k x, r = c +:+ "." +:+ k /\ x ∈ comps
                /\ components.uid x = c /\ k ∈ commodities (config x).
Proof.
  unfold resolves. destruct (split_reference r) as [[c k]|] eqn:E; [|discriminate].
  intros H. apply existsb_exists in H as (x & Hx & Hb).
  apply andb_true_iff in Hb as [Hu Hk].
  apply String.eqb_eq in Hu. apply bool_decide_eq_true in Hk.
  exists c, k, x. repeat split; auto using split_reference_app.
  apply list_elem_of_In. exact Hx.
Qed.

Lemma AbstractEnergySystem_ok u b si so tr st tf gc es :
  AbstractEnergySystem u b si so tr st tf gc = Ok es ->
  es = mkEnergySystem u b si so tr st tf gc
  /\ forallb (fun x => forallb (resolves (so ++ si ++ tr ++ st)) (references x)) b = true
  /\ forallb (series_fit tf) (b ++ so ++ si ++ tr ++ st) = true.
Proof.
  unfold AbstractEnergySystem.
  destruct (forallb (fun x => forallb _ (references x)) b); simpl; [|discriminate].
  destruct (forallb (series_fit tf) _); simpl; [|discriminate].
  intros H. inversion H. auto.
Qed.

Lemma assembled_resolved es : assembled es -> references_resolved es.
Proof.
  intros (u & b & si & so & tr & st & tf & gc & H).
  apply AbstractEnergySystem_ok in H as (-> & Hres & _).
  intros x r Hx Hr. simpl in Hx.
  rewrite forallb_forall in Hres.
  specialize (Hres x (proj1 (list_elem_of_In _ _) Hx)).
  rewrite forallb_forall in Hres.
  specialize (Hres r (proj1 (list_elem_of_In _ _) Hr)).
  apply resolves_sound in Hres as (c & k & y & ? & ? & ? & ?).
  exists c, k, y. auto.
Qed.

Lemma assembled_series es : assembled es -> series_match_timeframe es.
Proof.
  intros (u & b & si & so & tr & st & tf & gc & H).
  apply AbstractEnergySystem_ok in H as (-> & _ & Hfit).
  intros x c mm Hx Hc. unfold nodes in Hx. simpl in Hx |- *.
  rewrite forallb_forall in Hfit.
  specialize (Hfit x (proj1 (list_elem_of_In _ _) Hx)).
  unfold series_fit in Hfit. rewrite forallb_forall in Hfit.
  specialize (Hfit _ (proj1 (list_elem_of_In _ _) Hc)). simpl in Hfit.
  apply andb_true_iff in Hfit as [H1 H2].
  apply Nat.eqb_eq in H1, H2. auto.
Qed.

Lemma dangling_rejected u b si so tr st tf gc x r :
  x ∈ b -> r ∈ references x ->
  resolves (so ++ si ++ tr ++ st) r = false ->
  AbstractEnergySystem u b si so tr st tf gc = Err ResolutionError.
Proof.
  intros Hx Hr Hno. unfold AbstractEnergySystem.
  destruct (forallb (fun y => forallb _ (references y)) b) eqn:E; [|reflexivity].
  rewrite forallb_forall in E.
  specialize (E x (proj1 (list_elem_of_In _ _) Hx)).
  rewrite forallb_forall in E.
  specialize (E r (proj1 (list_elem_of_In _ _) Hr)). congruence.
Qed.

Lemma misfit_rejected u b si so tr st tf gc x c mm :
  x ∈ (b ++ so ++ si ++ tr ++ st)%list ->
  (c, mm) ∈ timeseries_of (config x) ->
  length (nts.min mm) <> pandas.len tf \/ length (nts.max mm) <> pandas.len tf ->
  is_ok (AbstractEnergySystem u b si so tr st tf gc) = false.
Proof.
  intros Hx Hc Hlen. unfold AbstractEnergySystem.
  destruct (forallb (fun y => forallb _ (references y)) b); [|reflexivity].
  destruct (forallb (series_fit tf) _) eqn:E; [|reflexivity]. exfalso.
  rewrite forallb_forall in E.
  specialize (E x (proj1 (list_elem_of_In _ _) Hx)).
  unfold series_fit in E. rewrite forallb_forall in E.
  specialize (E _ (proj1 (list_elem_of_In _ _) Hc)). simpl in E.
  apply andb_true_iff in E as [H1 H2].
  apply Nat.eqb_eq in H1, H2. tauto.
Qed.
End Assembly.

(** *** Rules for bodies *)

Section Rules.
Context {A B : Type}.
Implicit Types (m : M A) (k : A -> M B).

Lemma bind_ok m k s b s' :
  bind m k s = (Ok b, s') ->
  exists a s1, m s = (Ok a, s1) /\ k a s1 = (Ok b, s').
Proof.
  unfold bind. destruct (m s) as [[a|e] s1]; [eauto | discriminate].
Qed.

Lemma post_bind m k (P : B -> Prop) :
  (forall a, post (k a) P) -> post (bind m k) P.
Proof.
  intros Hk s b s' H. apply bind_ok in H as (a & s1 & _ & H). eapply Hk, H.
Qed.

Lemma post_lift (r : Result A) (P : A -> Prop) :
  (forall a, r = Ok a -> P a) -> post (lift r) P.
Proof. intros H s a s' E. inversion E. auto. Qed.

Lemma reads_only_bind m k :
  reads_only m -> (forall a, reads_only (k a)) -> reads_only (bind m k).
Proof.
  intros Hm Hk s. unfold bind. specialize (Hm s).
  destruct (m s) as [[a|e] s1]; simpl in *; [|exact Hm].
  rewrite Hk. exact Hm.
Qed.

Lemma respects_bind R m k :
  respects R m -> (forall a, respects R (k a)) -> respects R (bind m k).
Proof.
  intros Hm Hk s1 s2 HR. unfold bind.
  destruct (Hm s1 s2 HR) as [Hr Hs].
  destruct (m s1) as [[a1|e1] t1], (m s2) as [[a2|e2] t2];
    simpl in *; try discriminate.
  - inversion Hr; subst. apply Hk, Hs.
  - inversion Hr; subst. split; [reflexivity | assumption].
Qed.
End Rules.

Create HintDb body discriminated.

Section Primitives.
Context {A : Type}.

Lemma reads_only_ret (a : A) : reads_only (ret a).
Proof. intros s. reflexivity. Qed.

Lemma reads_only_lift (r : Result A) : reads_only (lift r).
Proof. intros s. reflexivity. Qed.

Lemma reads_only_raise e : reads_only (raise e : M A).
Proof. intros s. reflexivity. Qed.

Lemma reads_only_example_dir : reads_only paths_example_dir.
Proof. intros s. reflexivity. Qed.

Lemma reads_only_read_csv p : reads_only (pd.read_csv p).
Proof. intros s. unfold pd.read_csv. destruct (files (world s) !! p); reflexivity. Qed.

Lemma reads_only_new l : reads_only (np.new l).
Proof. intros s. reflexivity. Qed.

Lemma reads_only_read a : reads_only (np.read a).
Proof. intros s. unfold np.read. destruct (heap s !! a); reflexivity. Qed.

Lemma reads_only_setitem a i x : reads_only (np.setitem a i x).
Proof.
  intros s. unfold np.setitem. destruct (heap s !! a); [|reflexivity].
  case_bool_decide; reflexivity.
Qed.

Lemma respects_ret R (a : A) : respects R (ret a).
Proof. intros s1 s2 HR. split; [reflexivity | exact HR]. Qed.

Lemma respects_lift R (r : Result A) : respects R (lift r).
Proof. intros s1 s2 HR. split; [reflexivity | exact HR]. Qed.

Lemma respects_raise R e : respects R (raise e : M A).
Proof. intros s1 s2 HR. split; [reflexivity | exact HR]. Qed.

End Primitives.

Section Loops.
Lemma reads_only_for_each {A} (l : list A) body :
  (forall x, reads_only (body x)) -> reads_only (for_each l body).
Proof.
  intros Hb. induction l as [|x l IH]; cbn [for_each].
  - apply reads_only_ret.
  - apply reads_only_bind; auto.
Qed.

Lemma respects_for_each {A} R (l : list A) body :
  (forall x, respects R (body x)) -> respects R (for_each l body).
Proof.
  intros Hb. induction l as [|x l IH]; cbn [for_each].
  - apply respects_ret.
  - apply respects_bind; auto.
Qed.
End Loops.

Section SameInputs.
Variable dir : string.
Abbreviation R := (same_inputs_at dir).

Lemma respects_example_dir {B} (k : string -> M B) :
  respects R (k dir) -> respects R (bind paths_example_dir k).
Proof.
  intros Hk s1 s2 HR. unfold bind, paths_example_dir.
  destruct HR as (Hh & H1 & H2 & Hf). rewrite H1, H2.
  apply Hk. repeat split; assumption.
Qed.

Lemma respects_read_csv p :
  p ∈ load_profiles dir -> respects R (pd.read_csv p).
Proof.
  intros Hp s1 s2 HR. unfold pd.read_csv.
  destruct HR as (Hh & H1 & H2 & Hf). rewrite (Hf p Hp).
  destruct (files (world s2) !! p); (split; [reflexivity | repeat split; assumption]).
Qed.

Lemma respects_new l : respects R (np.new l).
Proof.
  intros s1 s2 (Hh & H1 & H2 & Hf). unfold np.new. simpl. rewrite Hh.
  split; [reflexivity | repeat split; assumption].
Qed.

Lemma respects_read a : respects R (np.read a).
Proof.
  intros s1 s2 (Hh & H1 & H2 & Hf). unfold np.read. rewrite Hh.
  destruct (heap s2 !! a); (split; [reflexivity | repeat split; assumption]).
Qed.

Lemma respects_setitem a i x : respects R (np.setitem a i x).
Proof.
  intros s1 s2 (Hh & H1 & H2 & Hf). unfold np.setitem. rewrite Hh.
  destruct (heap s2 !! a); [case_bool_decide|];
    (split; [reflexivity | repeat split; simpl; auto]).
Qed.
End SameInputs.

#[local] Hint Resolve reads_only_ret reads_only_lift reads_only_raise
  reads_only_example_dir reads_only_read_csv reads_only_new reads_only_read
  reads_only_setitem respects_ret respects_lift respects_raise respects_new
  respects_read respects_setitem : body.

(** One step through a body: a primitive, or a bind whose first part is a
    primitive. *)
Ltac in_load_profiles :=
  unfold load_profiles; cbv zeta; apply list_elem_of_In; cbn [In]; tauto.

Ltac primitive :=
  solve [ auto with body
        | apply respects_read_csv; in_load_profiles ].

Ltac through_body bind_rule :=
  repeat (cbv zeta;
          first [ primitive
                | apply respects_example_dir
                | apply bind_rule; [ primitive | intros ] ]).

Section Arrays.
Lemma reads_only_array a : reads_only (np.array a).
Proof. unfold np.array. through_body (@reads_only_bind). Qed.

Lemma reads_only_len a : reads_only (np.len a).
Proof. unfold np.len. through_body (@reads_only_bind). Qed.

Lemma reads_only_amax a : reads_only (np.amax a).
Proof. unfold np.amax. through_body (@reads_only_bind). Qed.

Lemma reads_only_getitem a i : reads_only (np.getitem a i).
Proof.
  unfold np.getitem. through_body (@reads_only_bind).
  destruct (_ !! i); primitive.
Qed.

Lemma respects_array dir a : respects (same_inputs_at dir) (np.array a).
Proof. unfold np.array. through_body (@respects_bind). Qed.

Lemma respects_len dir a : respects (same_inputs_at dir) (np.len a).
Proof. unfold np.len. through_body (@respects_bind). Qed.

Lemma respects_amax dir a : respects (same_inputs_at dir) (np.amax a).
Proof. unfold np.amax. through_body (@respects_bind). Qed.

Lemma respects_getitem dir a i : respects (same_inputs_at dir) (np.getitem a i).
Proof.
  unfold np.getitem. through_body (@respects_bind).
  destruct (_ !! i); primitive.
Qed.
End Arrays.

#[local] Hint Resolve reads_only_array reads_only_len reads_only_amax
  reads_only_getitem respects_array respects_len respects_amax
  respects_getitem : body.

Section Normalization.
Lemma reads_only_pv_normalization pv_HH pv_norm max_pv :
  reads_only (pv_normalization pv_HH pv_norm max_pv).
Proof.
  unfold pv_normalization. through_body (@reads_only_bind).
  apply reads_only_for_each. intros i. through_body (@reads_only_bind).
  destruct (num_is_zero _); through_body (@reads_only_bind).
Qed.

Lemma respects_pv_normalization dir pv_HH pv_norm max_pv :
  respects (same_inputs_at dir) (pv_normalization pv_HH pv_norm max_pv).
Proof.
  unfold pv_normalization. through_body (@respects_bind).
  apply respects_for_each. intros i. through_body (@respects_bind).
  destruct (num_is_zero _); through_body (@respects_bind).
Qed.
End Normalization.

(** *** The builders, part by part *)

Section Builders.
Variable annuity : Q -> nat -> Q -> num.

Ltac returns_assembled :=
  repeat first [ progress cbv zeta | apply post_bind; intros ];
  apply post_lift; intros; do 8 eexists; eassumption.

Lemma hhes_ar_assembled periods :
  post (hhes_ar_explicit_es annuity periods) assembled.
Proof. unfold hhes_ar_explicit_es. returns_assembled. Qed.

Lemma hhes_ar_reads_only periods :
  reads_only (hhes_ar_explicit_es annuity periods).
Proof. unfold hhes_ar_explicit_es. through_body (@reads_only_bind). Qed.

Lemma hhes_ar_respects dir periods :
  respects (same_inputs_at dir) (hhes_ar_explicit_es annuity periods).
Proof. unfold hhes_ar_explicit_es. through_body (@respects_bind). Qed.

Lemma hhes_basic_assembled N em_limit period filename :
  post (hhes_basic_explicit_es_with annuity N em_limit period filename) assembled.
Proof. unfold hhes_basic_explicit_es_with. returns_assembled. Qed.

Lemma hhes_basic_reads_only N em_limit period filename :
  (forall a b x, reads_only (N a b x)) ->
  reads_only (hhes_basic_explicit_es_with annuity N em_limit period filename).
Proof.
  intros HN. unfold hhes_basic_explicit_es_with.
  through_body (@reads_only_bind).
Qed.

Lemma hhes_basic_respects dir N em_limit period filename :
  (forall a b x, respects (same_inputs_at dir) (N a b x)) ->
  respects (same_inputs_at dir)
    (hhes_basic_explicit_es_with annuity N em_limit period filename).
Proof.
  intros HN. unfold hhes_basic_explicit_es_with.
  through_body (@respects_bind).
Qed.
End Builders.

(** *** Building, then storing *)

Section BuildStore.
Variables (m : M EnergySystem) (name : string).
Variables (directory filename : option string).

Let create : World -> Result EnergySystem * World :=
  call (bind m (fun es =>
        bind (dump es directory (if_not filename name)) (fun _ => ret es))).

Hypothesis m_reads_only : reads_only m.

Lemma build_store_ok w es w' :
  create w = (Ok es, w') ->
  fst (m {| world := w; heap := [] |}) = Ok es
  /\ (target_directory w directory ∉ write_protected w)
  /\ w' = set_storage w (<[(target_directory w directory, if_not filename name) := es]>
                           (storage w)).
Proof.
  unfold create, call, bind, dump.
  pose proof (m_reads_only {| world := w; heap := [] |}) as Hw.
  destruct (m _) as [[es1|e] s1]; simpl in *; subst w.
  - fold (target_directory (world s1) directory).
    case_bool_decide; intros E; inversion E; subst. auto.
  - discriminate.
Qed.

Lemma build_store_err w e w' :
  create w = (Err e, w') -> w' = w.
Proof.
  unfold create, call, bind, dump.
  pose proof (m_reads_only {| world := w; heap := [] |}) as Hw.
  destruct (m _) as [[es1|e1] s1]; simpl in *; subst w.
  - case_bool_decide; intros E; inversion E; subst. reflexivity.
  - intros E; inversion E. reflexivity.
Qed.

End BuildStore.

(** *** Whole calls *)

Section Calls.
Variable annuity : Q -> nat -> Q -> num.

Lemma fst_call {A} (m : M A) w :
  fst (call m w) = fst (m {| world := w; heap := [] |}).
Proof. unfold call. destruct (m _) as [r s]. reflexivity. Qed.

Lemma zero_costs_runs :
  exists es, forall s, zero_costs_explicit_es s = (Ok es, s).
Proof. eexists. intros s. vm_compute. reflexivity. Qed.

Lemma explicit_es_reads_only c : reads_only (explicit_es_of annuity c).
Proof.
  destruct c; cbn [explicit_es_of].
  - destruct zero_costs_runs as [es H]. intros s. rewrite H. reflexivity.
  - apply hhes_ar_reads_only.
  - unfold hhes_basic_explicit_es.
    apply hhes_basic_reads_only, reads_only_pv_normalization.
Qed.

Lemma explicit_es_assembled c : post (explicit_es_of annuity c) assembled.
Proof.
  destruct c; cbn [explicit_es_of].
  - unfold zero_costs_explicit_es.
    repeat first [ progress cbv zeta | apply post_bind; intros ].
    apply post_lift; intros; do 8 eexists; eassumption.
  - apply hhes_ar_assembled.
  - unfold hhes_basic_explicit_es. apply hhes_basic_assembled.
Qed.

Lemma explicit_es_respects dir c :
  respects (same_inputs_at dir) (explicit_es_of annuity c).
Proof.
  destruct c; cbn [explicit_es_of].
  - destruct zero_costs_runs as [es H]. intros s1 s2 HR. rewrite !H.
    split; [reflexivity | exact HR].
  - apply hhes_ar_respects.
  - unfold hhes_basic_explicit_es.
    apply hhes_basic_respects, respects_pv_normalization.
Qed.

(** What a call leaves behind when it returns [es]. *)
Lemma run_example_ok c w es w' :
  run_example annuity c w = (Ok es, w') ->
  fst (call (explicit_es_of annuity c) w) = Ok es
  /\ match default_filename c with
     | None => w' = w
     | Some name =>
         (target_directory w (directory_of c) ∉ write_protected w)
         /\ w' = set_storage w
                   (<[(target_directory w (directory_of c),
                       if_not (filename_of c) name) := es]> (storage w))
     end.
Proof.
  rewrite fst_call.
  destruct c as [d f | periods d f | em_limit period d f];
    cbn [run_example explicit_es_of default_filename directory_of filename_of].
  - destruct zero_costs_runs as [es0 H0].
    unfold create_zero_costs_es, call, bind, ret. rewrite !H0.
    intros E; inversion E; subst. auto.
  - intros E.
    apply (build_store_ok (hhes_ar_explicit_es annuity periods) "hhes.tsf" d f
             (hhes_ar_reads_only annuity periods)) in E.
    exact E.
  - intros E.
    apply (build_store_ok (hhes_basic_explicit_es annuity em_limit period f)
             "hhes_basic.tsf" d f
             (explicit_es_reads_only (hhes_basic em_limit period d f))) in E.
    exact E.
Qed.

(** A call that raises leaves the world as it was. *)
Lemma run_example_err c w e w' :
  run_example annuity c w = (Err e, w') -> w' = w.
Proof.
  destruct c as [d f | periods d f | em_limit period d f]; cbn [run_example].
  - destruct zero_costs_runs as [es0 H0].
    unfold create_zero_costs_es, call, bind, ret. rewrite H0. discriminate.
  - apply (build_store_err (hhes_ar_explicit_es annuity periods) "hhes.tsf" d f
             (hhes_ar_reads_only annuity periods)).
  - apply (build_store_err (hhes_basic_explicit_es annuity em_limit period f)
             "hhes_basic.tsf" d f
             (explicit_es_reads_only (hhes_basic em_limit period d f))).
Qed.

Lemma run_example_assembled c w es w' :
  run_example annuity c w = (Ok es, w') -> assembled es.
Proof.
  intros E. apply run_example_ok in E as [E _]. rewrite fst_call in E.
  destruct (explicit_es_of annuity c _) as [r s] eqn:Em. simpl in E. subst r.
  eapply explicit_es_assembled, Em.
Qed.
End Calls.

(** ** The claims *)

(** The test data: the default call of [create_hhes_basic] returns on a
    world whose load profiles have 100 rows. *)
Lemma demo_basic_returns :
  is_ok (fst (run_example demo_annuity hhes_basic_default (demo_world 100)))
  = true.
Proof. vm_compute. reflexivity. Qed.

Lemma resolves_complete (comps : list Component) r :
  ~ (exists c k x, r = c +:+ "." +:+ k /\ x ∈ comps
                   /\ components.uid x = c /\ k ∈ commodities (config x)) ->
  resolves comps r = false.
Proof.
  intros H. apply not_true_is_false. intros Hr. apply H.
  apply resolves_sound, Hr.
Qed.

(** C2: in every system the container's constructor returns, and so in
    every system an example builder returns, each reference of each Bus
    reads "<component>.<commodity>" and names a component of the system that
    declares that commodity among its inputs/outputs; given a Bus with a
    reference for which no such component exists, the constructor raises
    ResolutionError. *)
Theorem bus_references_resolve :
  forall annuity,
    (forall es, assembled es -> references_resolved es)
    /\ (forall c w es w',
          run_example annuity c w = (Ok es, w') -> references_resolved es)
    /\ (forall u b si so tr st tf gc x r,
          x ∈ b -> r ∈ references x ->
          ~ (exists c k y, r = c +:+ "." +:+ k /\ y ∈ (so ++ si ++ tr ++ st)%list
                           /\ components.uid y = c /\ k ∈ commodities (config y)) ->
          AbstractEnergySystem u b si so tr st tf gc = Err ResolutionError).
Proof.
  intros annuity. split; [|split].
  - apply assembled_resolved.
  - intros c w es w' E.
    eapply assembled_resolved, run_example_assembled, E.
  - intros u b si so tr st tf gc x r Hx Hr Hno.
    eapply dangling_rejected; eauto using resolves_complete.
Qed.

(** C3: in every system the container's constructor returns, and so in
    every system an example builder returns for whatever period it is
    called with, every declared time series has as many rows as the
    timeframe has steps; given a component with a series of another length,
    the constructor does not return a system. *)
Theorem series_have_timeframe_length :
  forall annuity,
    (forall es, assembled es -> series_match_timeframe es)
    /\ (forall c w es w',
          run_example annuity c w = (Ok es, w') -> series_match_timeframe es)
    /\ (forall u b si so tr st tf gc x c mm,
          x ∈ (b ++ so ++ si ++ tr ++ st)%list ->
          (c, mm) ∈ timeseries_of (config x) ->
          length (nts.min mm) <> pandas.len tf
          \/ length (nts.max mm) <> pandas.len tf ->
          is_ok (AbstractEnergySystem u b si so tr st tf gc) = false).
Proof.
  intros annuity. split; [|split].
  - apply assembled_series.
  - intros c w es w' E.
    eapply assembled_series, run_example_assembled, E.
  - intros u b si so tr st tf gc x c mm. apply misfit_rejected.
Qed.

(** C4: [create_zero_costs_es] returns, whatever it is called with, a system
    of one bus, three sources of which exactly one emits, and one sink, so
    five nodes in all, over a timeframe of four hourly steps, and stores the
    emissions constraint as 8. *)
Theorem zero_costs_es_five_nodes :
  forall directory filename w,
  exists es,
    create_zero_costs_es directory filename w = (Ok es, w)
    /\ length (nodes es) = 5
    /\ length (busses es) = 1
    /\ length (sources es) = 3
    /\ length (List.filter emits (sources es)) = 1
    /\ length (sinks es) = 1
    /\ transformers es = [] /\ storages es = []
    /\ pandas.len (timeframe es) = 4
    /\ pandas.freq (timeframe es) = "H"
    /\ constraint es "emissions" = Some (VNum 8%Q).
Proof.
  intros directory filename w. eexists. split.
  - vm_compute. reflexivity.
  - vm_compute. repeat split.
Qed.

(** C9: [create_zero_costs_es] leaves the world, and so the persistent
    storage, as it was, and returns the same system whatever directory and
    filename it is given. *)
Theorem zero_costs_es_writes_nothing :
  forall directory filename directory' filename' w,
    snd (create_zero_costs_es directory filename w) = w
    /\ storage (snd (create_zero_costs_es directory filename w)) = storage w
    /\ is_ok (fst (create_zero_costs_es directory filename w)) = true
    /\ create_zero_costs_es directory' filename' w
       = create_zero_costs_es directory filename w.
Proof. intros. repeat split. Qed.

(** C5: two calls of the same example builder with the same arguments, in
    worlds that agree on the example directory and on the contents of the
    load profiles in it, return equal systems, whatever the state of the
    random generator and of the storage. *)
Theorem same_inputs_same_system :
  forall annuity c w1 w2 es1 es2,
    same_inputs w1 w2 ->
    fst (run_example annuity c w1) = Ok es1 ->
    fst (run_example annuity c w2) = Ok es2 ->
    es1 = es2.
Proof.
  intros annuity c w1 w2 es1 es2 [Hdir Hfiles] E1 E2.
  destruct (run_example annuity c w1) as [r1 w1'] eqn:R1.
  destruct (run_example annuity c w2) as [r2 w2'] eqn:R2.
  simpl in E1, E2. subst r1 r2.
  apply run_example_ok in R1 as [R1 _]. apply run_example_ok in R2 as [R2 _].
  rewrite fst_call in R1, R2.
  destruct (explicit_es_respects annuity (example_dir w1) c
              {| world := w1; heap := [] |} {| world := w2; heap := [] |})
    as [Hr _].
  { repeat split; simpl; auto. }
  congruence.
Qed.

(** C7: a call of an example builder that returns a system returns the
    system as the container's constructor made it, and leaves the world as
    it was except that this same system is stored under the target
    directory and filename ([create_zero_costs_es] stores nothing); a call
    that raises leaves the world as it was. *)
Theorem system_unchanged_by_dump :
  forall annuity c w,
    (forall es w',
       run_example annuity c w = (Ok es, w') ->
       fst (call (explicit_es_of annuity c) w) = Ok es
       /\ w' = match default_filename c with
               | None => w
               | Some name =>
                   set_storage w
                     (<[(target_directory w (directory_of c),
                         if_not (filename_of c) name) := es]> (storage w))
               end)
    /\ (forall e w', run_example annuity c w = (Err e, w') -> w' = w).
Proof.
  intros annuity c w. split.
  - intros es w' E. apply run_example_ok in E as [E1 E2]. split; [exact E1|].
    destruct (default_filename c); tauto.
  - intros e w'. apply run_example_err.
Qed.


(** *** The uid of the basic Hamburg system *)

Lemma hhes_basic_uid annuity N em_limit period filename :
  post (hhes_basic_explicit_es_with annuity N em_limit period filename)
       (fun es => uid es = filename).
Proof.
  unfold hhes_basic_explicit_es_with.
  repeat first [ progress cbv zeta | apply post_bind; intros ].
  apply post_lift. intros es H.
  apply AbstractEnergySystem_ok in H as [-> _]. reflexivity.
Qed.

(** C6: [create_hhes_basic] called with its defaults on the test data
    returns a system whose uid is None: the filename argument becomes the
    uid before the default filename is filled in. *)
Theorem hhes_basic_default_call_has_no_uid :
  exists es w',
    run_example demo_annuity hhes_basic_default (demo_world 100) = (Ok es, w')
    /\ uid es = None.
Proof.
  destruct (run_example demo_annuity hhes_basic_default (demo_world 100))
    as [[es|e] w'] eqn:E.
  - exists es, w'. split; [reflexivity|].
    apply run_example_ok in E as [E _]. rewrite fst_call in E.
    destruct (explicit_es_of _ _ _) as [r s] eqn:Em. simpl in E. subst r.
    apply (hhes_basic_uid _ _ _ _ _ _ _ _ Em).
  - pose proof demo_basic_returns as H. rewrite E in H. discriminate.
Qed.

(** *** What the primitives return *)

Section Inversion.
Lemma lift_ok {A} (r : Result A) s a s' :
  lift r s = (Ok a, s') -> r = Ok a /\ s' = s.
Proof. intros H. inversion H. auto. Qed.

Lemma example_dir_ok s d s' :
  paths_example_dir s = (Ok d, s') -> d = example_dir (world s) /\ s' = s.
Proof. intros H. inversion H. auto. Qed.

Lemma read_csv_ok p s df s' :
  pd.read_csv p s = (Ok df, s') -> files (world s) !! p = Some df /\ s' = s.
Proof.
  unfold pd.read_csv. destruct (files (world s) !! p); intros H; inversion H; auto.
Qed.

Lemma new_ok l s a s' :
  np.new l s = (Ok a, s') ->
  a = length (heap s) /\ world s' = world s /\ heap s' = (heap s ++ [l])%list.
Proof. intros H. inversion H. auto. Qed.

Lemma read_ok a s l s' :
  np.read a s = (Ok l, s') -> heap s !! a = Some l /\ s' = s.
Proof.
  unfold np.read. destruct (heap s !! a); intros H; inversion H; auto.
Qed.

Lemma amax_ok a s x s' :
  np.amax a s = (Ok x, s') ->
  (exists l, heap s !! a = Some l /\ max_of l = Ok x) /\ s' = s.
Proof.
  unfold np.amax. intros H.
  apply bind_ok in H as (l & s1 & Hr & H).
  apply read_ok in Hr as [Hr ->]. apply lift_ok in H as [H ->]. eauto.
Qed.

Lemma array_ok a s b s' :
  np.array a s = (Ok b, s') ->
  exists l, heap s !! a = Some l /\ b = length (heap s)
            /\ world s' = world s /\ heap s' = (heap s ++ [l])%list.
Proof.
  unfold np.array. intros H.
  apply bind_ok in H as (l & s1 & Hr & H).
  apply read_ok in Hr as [Hr ->]. apply new_ok in H. exists l. tauto.
Qed.

(** After [pv_HH = ...; max_pv = np.max(pv_HH); pv_norm = np.array(pv_HH)]
    the two arrays are distinct objects with the same entries. *)
Lemma arrays_allocated l s a s1 x s2 b s3 :
  np.new l s = (Ok a, s1) ->
  np.amax a s1 = (Ok x, s2) ->
  np.array a s2 = (Ok b, s3) ->
  heap s3 !! a = Some l /\ heap s3 !! b = Some l /\ a <> b
  /\ max_of l = Ok x /\ world s3 = world s.
Proof.
  intros Hn Hm Ha.
  apply new_ok in Hn as (-> & Hw1 & Hh1).
  apply amax_ok in Hm as [(l1 & Hl1 & Hx) ->].
  apply array_ok in Ha as (l2 & Hl2 & -> & Hw3 & Hh3).
  assert (heap s1 !! length (heap s) = Some l) as Hl.
  { rewrite Hh1. apply list_lookup_middle. reflexivity. }
  assert (Some l1 = Some l) as E1 by exact (eq_trans (eq_sym Hl1) Hl).
  assert (Some l2 = Some l) as E2 by exact (eq_trans (eq_sym Hl2) Hl).
  inversion E1; inversion E2; subst l1 l2.
  rewrite Hh3. repeat split.
  - apply lookup_app_l_Some, Hl.
  - apply list_lookup_middle. reflexivity.
  - rewrite Hh1, length_app. simpl. lia.
  - exact Hx.
  - congruence.
Qed.
End Inversion.

(** *** The normalization loop *)

Section Loop.
Variables (a b : np.ndarray) (max_pv : num) (l : list num).
Hypothesis distinct : a <> b.





End Loop.

(** *** Runs that differ only in what is on the heap *)

Section Observation.



Lemma respects_read_same_array a : respects (same_array a) (np.read a).
Proof.
  intros s1 s2 [Hw Ha]. unfold np.read.
  rewrite <- Ha.
  destruct (heap s1 !! a) eqn:E; simpl;
    (split; [reflexivity | split; [exact Hw | congruence]]).
Qed.

End Observation.

#[local] Hint Resolve respects_read_same_array : body.

Section Independence.
Variable annuity : Q -> nat -> Q -> num.



End Independence.

Section SolarSeries.
Variable annuity : Q -> nat -> Q -> num.

End SolarSeries.


(** ** Witnesses *)

Lemma demo_basic_returns_elsewhere :
  is_ok (fst (run_example demo_annuity hhes_basic_default
                (set_rng_pos (demo_world 100) 17))) = true.
Proof. vm_compute. reflexivity. Qed.



Lemma bus_references_resolve_witness :
  (exists es w',
     run_example demo_annuity (zero_costs_es None None) (demo_world 0) = (Ok es, w')
     /\ references_resolved es)
  /\ AbstractEnergySystem None
       [mkComponent BusK "gas pipeline" [outputs ["chp2.gas"]]] [] [] [] []
       (pd.date_range "2019-01-01" 1 "H") []
     = Err ResolutionError.
Proof.
  split.
  - destruct (run_example demo_annuity (zero_costs_es None None) (demo_world 0))
      as [[es|e] w'] eqn:E.
    + exists es, w'. split; [reflexivity|].
      exact (proj1 (proj2 (bus_references_resolve demo_annuity)) _ _ _ _ E).
    + vm_compute in E. discriminate.
  - apply (proj2 (proj2 (bus_references_resolve demo_annuity))
             None _ [] [] [] [] _ []
             (mkComponent BusK "gas pipeline" [outputs ["chp2.gas"]]) "chp2.gas").
    + apply list_elem_of_In. simpl. tauto.
    + apply list_elem_of_In. simpl. tauto.
    + intros (c & k & y & _ & Hy & _). apply list_elem_of_In in Hy. exact Hy.
Defined.

Lemma series_have_timeframe_length_witness :
  exists es w',
    run_example demo_annuity hhes_basic_default (demo_world 100) = (Ok es, w')
    /\ series_match_timeframe es.
Proof.
  destruct (run_example demo_annuity hhes_basic_default (demo_world 100))
    as [[es|e] w'] eqn:E.
  - exists es, w'. split; [reflexivity|].
    exact (proj1 (proj2 (series_have_timeframe_length demo_annuity)) _ _ _ _ E).
  - pose proof demo_basic_returns as H. rewrite E in H. discriminate.
Defined.

Lemma same_inputs_same_system_witness :
  exists es1 es2,
    same_inputs (demo_world 100) (set_rng_pos (demo_world 100) 17)
    /\ fst (run_example demo_annuity hhes_basic_default (demo_world 100)) = Ok es1
    /\ fst (run_example demo_annuity hhes_basic_default
              (set_rng_pos (demo_world 100) 17)) = Ok es2
    /\ es1 = es2.
Proof.
  destruct (fst (run_example demo_annuity hhes_basic_default (demo_world 100)))
    as [es1|e] eqn:E1.
  - destruct (fst (run_example demo_annuity hhes_basic_default
                     (set_rng_pos (demo_world 100) 17))) as [es2|e] eqn:E2.
    + assert (same_inputs (demo_world 100) (set_rng_pos (demo_world 100) 17)) as Hs.
      { split; [reflexivity | intros p _; reflexivity]. }
      exists es1, es2. repeat split; try reflexivity.
      exact (same_inputs_same_system demo_annuity hhes_basic_default
               _ _ es1 es2 Hs E1 E2).
    + pose proof demo_basic_returns_elsewhere as H. rewrite E2 in H. discriminate.
  - pose proof demo_basic_returns as H. rewrite E1 in H. discriminate.
Defined.

Lemma system_unchanged_by_dump_witness :
  exists es w',
    run_example demo_annuity hhes_basic_default (demo_world 100) = (Ok es, w')
    /\ fst (call (explicit_es_of demo_annuity hhes_basic_default) (demo_world 100))
       = Ok es
    /\ w' = set_storage (demo_world 100)
              (<[("write/tsf", "hhes_basic.tsf") := es]> (storage (demo_world 100))).
Proof.
  destruct (run_example demo_annuity hhes_basic_default (demo_world 100))
    as [[es|e] w'] eqn:E.
  - exists es, w'. split; [reflexivity|].
    exact (proj1 (system_unchanged_by_dump demo_annuity hhes_basic_default
                    (demo_world 100)) es w' E).
  - pose proof demo_basic_returns as H. rewrite E in H. discriminate.
Defined.



(** ** Further properties of the builders *)

Section Anatomy.
Variable annuity : Q -> nat -> Q -> num.

(** What a system returned by the construction part of [create_hhes_basic]
    is made of, whatever runs in place of the normalization loop. *)
Lemma hhes_basic_anatomy N em_limit period filename s es s' :
  hhes_basic_explicit_es_with annuity N em_limit period filename s = (Ok es, s') ->
  exists de col wo demand excess imp solar wind,
    files (world s) !! demand_profile (example_dir (world s)) = Some de
    /\ pandas.getitem de "Last (MW)" = Ok col
    /\ files (world s) !! wind_profile (example_dir (world s)) = Some wo
    /\ sinks es = [demand; excess]
    /\ sources es = [imp; solar; wind]
    /\ series_of demand "electricity"
       = Some (nts.MinMax (take periods col) (take periods col))
    /\ series_of wind "electricity"
       = Some (nts.MinMax (take periods (pandas.values_flatten wo))
                          (take periods (pandas.values_flatten wo)))
    /\ uid es = filename
    /\ timeframe es = pd.date_range "1/1/2019" period "H"
    /\ global_constraints es
       = [ ("name", VStr "hhes_basic"); ("emissions", VNum em_limit);
           ("resources", VNum PosInf) ].
Proof.
  unfold hhes_basic_explicit_es_with. cbv zeta. intros H.
  repeat (apply bind_ok in H; destruct H as (? & ? & ? & H)).
  apply lift_ok in H as [H _].
  repeat match goal with
    | H : lift _ _ = (Ok _, _) |- _ => apply lift_ok in H as [? ->]
    | H : pd.read_csv _ _ = (Ok _, _) |- _ => apply read_csv_ok in H as [? ->]
    | H : paths_example_dir _ = (Ok _, _) |- _ => apply example_dir_ok in H as [-> ->]
    end.
  match goal with
  | Hn : np.new _ _ = _, Hm : np.amax _ _ = _, Ha : np.array _ _ = _ |- _ =>
      destruct (arrays_allocated _ _ _ _ _ _ _ _ Hn Hm Ha) as (_ & _ & _ & _ & Hw)
  end.
  rewrite Hw in *.
  apply AbstractEnergySystem_ok in H as [-> _].
  repeat match goal with
    | H : components.Source _ _ = Ok _ |- _ => apply construct_ok in H as [_ ->]
    | H : components.Sink _ _ = Ok _ |- _ => apply construct_ok in H as [_ ->]
    end.
  do 8 eexists.
  split; [eassumption|]. split; [eassumption|]. split; [eassumption|].
  repeat split.
Qed.
End Anatomy.

Section Basics.
Variable annuity : Q -> nat -> Q -> num.

Lemma series_of_in x c mm :
  series_of x c = Some mm -> (c, mm) ∈ timeseries_of (config x).
Proof.
  unfold series_of. destruct (find _ _) as [[c' mm']|] eqn:E; [|discriminate].
  intros H. inversion H; subst. apply find_some in E as [Hin Hc].
  apply String.eqb_eq in Hc. simpl in Hc. subst c'.
  apply list_elem_of_In. exact Hin.
Qed.

Lemma create_hhes_basic_body em_limit period d f w es w' :
  create_hhes_basic annuity em_limit period d f w = (Ok es, w') ->
  exists s',
    hhes_basic_explicit_es_with annuity pv_normalization em_limit period f
      {| world := w; heap := [] |} = (Ok es, s').
Proof.
  intros E.
  apply (run_example_ok annuity (hhes_basic em_limit period d f)) in E as [E _].
  rewrite fst_call in E. cbn [explicit_es_of] in E.
  unfold hhes_basic_explicit_es in E.
  destruct (hhes_basic_explicit_es_with _ _ _ _ _ _) as [r s'] eqn:Em.
  simpl in E. subst r. eauto.
Qed.

Lemma bind_run_ok {A B} (m : M A) (k : A -> M B) s a s1 :
  m s = (Ok a, s1) -> bind m k s = k a s1.
Proof. intros H. unfold bind. rewrite H. reflexivity. Qed.

Lemma bind_run_err {A B} (m : M A) (k : A -> M B) s e s1 :
  m s = (Err e, s1) -> bind m k s = (Err e, s1).
Proof. intros H. unfold bind. rewrite H. reflexivity. Qed.

(** X1: [create_hhes_basic] returns only when its [period] is the length of the
    demand and wind profiles cut to the module-level [periods] = 100; so it
    never returns for a period above 100, nor for a period below 100 when
    the profiles have 100 rows or more. *)
Theorem hhes_basic_period_must_fit :
  forall em_limit period d f w es w',
    create_hhes_basic annuity em_limit period d f w = (Ok es, w') ->
    exists de col wo,
      files w !! demand_profile (example_dir w) = Some de
      /\ pandas.getitem de "Last (MW)" = Ok col
      /\ files w !! wind_profile (example_dir w) = Some wo
      /\ period = Nat.min periods (length col)
      /\ period = Nat.min periods (length (pandas.values_flatten wo))
      /\ period <= periods.
Proof.
  intros em_limit period d f w es w' E.
  pose proof (run_example_assembled annuity (hhes_basic em_limit period d f)
                w es w' E) as Has.
  apply assembled_series in Has.
  apply create_hhes_basic_body in E as [s' E].
  apply hhes_basic_anatomy in E
    as (de & col & wo & demand & excess & imp & solar & wind
        & Hde & Hcol & Hwo & Hsinks & Hsources & Hd & Hw & _ & Htf & _).
  simpl in Hde, Hwo.
  assert (pandas.len (timeframe es) = period) as Hlen.
  { rewrite Htf. unfold pandas.len, pd.date_range. simpl. apply length_seq. }
  assert (demand ∈ nodes es) as Hdn.
  { unfold nodes. rewrite Hsinks. rewrite !elem_of_app. right. right. left. left. }
  assert (wind ∈ nodes es) as Hwn.
  { unfold nodes. rewrite Hsources. rewrite !elem_of_app. right. left.
    right. right. left. }
  destruct (Has demand _ _ Hdn (series_of_in _ _ _ Hd)) as [H1 _].
  destruct (Has wind _ _ Hwn (series_of_in _ _ _ Hw)) as [H2 _].
  simpl in H1, H2. rewrite length_take, Hlen in H1, H2.
  exists de, col, wo. repeat split; auto; lia.
Qed.


(** X3: A system [create_hhes_basic] returns has the filename argument, as it
    was passed, for its uid, the given emission limit and an unbounded
    resource limit as global constraints, and an hourly timeframe of
    [period] steps from 1/1/2019. *)
Theorem hhes_basic_labels_and_limits :
  forall em_limit period d f w es w',
    create_hhes_basic annuity em_limit period d f w = (Ok es, w') ->
    uid es = f
    /\ constraint es "emissions" = Some (VNum em_limit)
    /\ constraint es "resources" = Some (VNum PosInf)
    /\ constraint es "name" = Some (VStr "hhes_basic")
    /\ timeframe es = pd.date_range "1/1/2019" period "H"
    /\ pandas.len (timeframe es) = period.
Proof.
  intros em_limit period d f w es w' E.
  apply create_hhes_basic_body in E as [s' E].
  apply hhes_basic_anatomy in E
    as (de & col & wo & demand & excess & imp & solar & wind
        & _ & _ & _ & _ & _ & _ & _ & Hu & Htf & Hgc).
  unfold constraint. rewrite Hgc, Htf.
  repeat split; try assumption. apply length_seq.
Qed.

(** X4: With a non-empty filename given, [create_hhes_basic] stores the system
    it returns under that very filename in the target directory. *)
Theorem hhes_basic_given_filename_is_used :
  forall em_limit period d name w es w',
    name <> EmptyString ->
    create_hhes_basic annuity em_limit period d (Some name) w = (Ok es, w') ->
    storage w' !! (target_directory w d, name) = Some es
    /\ uid es = Some name.
Proof.
  intros em_limit period d name w es w' Hname E. split.
  - apply (run_example_ok annuity (hhes_basic em_limit period d (Some name)))
      in E as [_ [_ ->]].
    cbn [directory_of filename_of if_not truthy]. 
    apply String.eqb_neq in Hname. rewrite Hname. simpl.
    apply lookup_insert_eq.
  - apply (hhes_basic_labels_and_limits _ _ _ _ _ _ _ E).
Qed.

(** X5: [create_hhes_ar] never returns a system and never changes the world:
    if the load profiles can be read, the construction of [hp1], whose
    conversions start from waste while its only input is gas, raises. *)
Theorem hhes_ar_never_returns :
  forall periods d f w,
    is_ok (fst (create_hhes_ar annuity periods d f w)) = false
    /\ snd (create_hhes_ar annuity periods d f w) = w.
Proof.
  intros periods d f w.
  destruct (create_hhes_ar annuity periods d f w) as [[es|e] w'] eqn:E.
  - exfalso.
    apply (run_example_ok annuity (hhes_ar periods d f)) in E as [E _].
    rewrite fst_call in E. cbn [explicit_es_of] in E.
    destruct (hhes_ar_explicit_es annuity periods _) as [r s'] eqn:Em.
    simpl in E. subst r.
    unfold hhes_ar_explicit_es in Em. cbv zeta in Em.
    do 14 (apply bind_ok in Em; destruct Em as (? & ? & ? & Em)).
    match goal with
    | H : lift (components.Transformer "heat power plant" _) _ = _ |- _ =>
        apply lift_ok in H as [H _]; apply construct_ok in H as [H _];
        vm_compute in H; discriminate
    end.
  - split; [reflexivity|]. simpl.
    apply (run_example_err annuity (hhes_ar periods d f) w e w' E).
Qed.
End Basics.

(** *** What the normalization loop computes *)

Section LoopResult.
Variables (a b : np.ndarray) (max_pv : num) (l : list num).
Hypothesis distinct : a <> b.






End LoopResult.

(** *** Missing load profiles *)

Section Loading.
Variable annuity : Q -> nat -> Q -> num.

Lemma read_csv_missing p s :
  files (world s) !! p = None -> pd.read_csv p s = (Err IOError, s).
Proof. intros H. unfold pd.read_csv. rewrite H. reflexivity. Qed.

Lemma read_csv_present p s df :
  files (world s) !! p = Some df -> pd.read_csv p s = (Ok df, s).
Proof. intros H. unfold pd.read_csv. rewrite H. reflexivity. Qed.

Lemma getitem_missing_column df c :
  c ∉ pandas.columns df -> pandas.getitem df c = Err KeyError.
Proof.
  unfold pandas.getitem. intros H.
  assert (pandas.index_of c (pandas.columns df) = None) as ->; [|reflexivity].
  induction (pandas.columns df) as [|c' cs IH]; [reflexivity|].
  cbn [pandas.index_of].
  destruct (String.eqb c' c) eqn:E.
  - apply String.eqb_eq in E. subst. exfalso. apply H. left.
  - rewrite IH; [reflexivity|]. intros Hin. apply H. right. exact Hin.
Qed.

(** X7: [create_hhes_basic] raises IOError when the demand profile is missing,
    and KeyError when the profile is there without a column "Last (MW)";
    either way the world, and so the storage, is left as it was. *)
Theorem hhes_basic_demand_profile_errors :
  forall em_limit period d f w,
    (files w !! demand_profile (example_dir w) = None ->
     create_hhes_basic annuity em_limit period d f w = (Err IOError, w))
    /\ (forall de,
          files w !! demand_profile (example_dir w) = Some de ->
          "Last (MW)" ∉ pandas.columns de ->
          create_hhes_basic annuity em_limit period d f w = (Err KeyError, w)).
Proof.
  intros em_limit period d f w.
  set (s0 := {| world := w; heap := [] |}).
  split.
  - intros Hnone.
    assert (hhes_basic_explicit_es_with annuity pv_normalization
              em_limit period f s0 = (Err IOError, s0)) as Hb.
    { unfold hhes_basic_explicit_es_with. cbv zeta.
      rewrite (bind_run_ok paths_example_dir _ s0 _ s0 eq_refl).
      apply bind_run_err, read_csv_missing. exact Hnone. }
    unfold create_hhes_basic, create_hhes_basic_with, call. fold s0.
    rewrite (bind_run_err _ _ _ _ _ Hb). reflexivity.
  - intros de Hde Hcol.
    assert (hhes_basic_explicit_es_with annuity pv_normalization
              em_limit period f s0 = (Err KeyError, s0)) as Hb.
    { unfold hhes_basic_explicit_es_with. cbv zeta.
      rewrite (bind_run_ok paths_example_dir _ s0 _ s0 eq_refl).
      rewrite (bind_run_ok _ _ s0 de s0 (read_csv_present _ s0 de Hde)).
      apply bind_run_err. unfold lift.
      rewrite (getitem_missing_column de _ Hcol). reflexivity. }
    unfold create_hhes_basic, create_hhes_basic_with, call. fold s0.
    rewrite (bind_run_err _ _ _ _ _ Hb). reflexivity.
Qed.

(** X8: [create_hhes_ar] raises IOError when the solar profile, the first file
    it reads, is missing, and leaves the world as it was. *)
Theorem hhes_ar_missing_solar_profile :
  forall periods d f w,
    files w !! solar_profile (example_dir w) = None ->
    create_hhes_ar annuity periods d f w = (Err IOError, w).
Proof.
  intros periods d f w Hnone.
  set (s0 := {| world := w; heap := [] |}).
  assert (hhes_ar_explicit_es annuity periods s0 = (Err IOError, s0)) as Hb.
  { unfold hhes_ar_explicit_es. cbv zeta.
    rewrite (bind_run_ok paths_example_dir _ s0 _ s0 eq_refl).
    apply bind_run_err, read_csv_missing. exact Hnone. }
  unfold create_hhes_ar, call. fold s0.
  rewrite (bind_run_err _ _ _ _ _ Hb). reflexivity.
Qed.
End Loading.

(** *** [norm] *)

Section Norm.
Lemma multiply_same_length (x y : list num) :
  length x = length y -> np.multiply x y = Ok (zip_with num_mul x y).
Proof.
  intros H. unfold np.multiply.
  destruct x as [|x0 [|x1 x]], y as [|y0 [|y1 y]]; try discriminate;
    try reflexivity.
  simpl in H. injection H as H. simpl.
  rewrite (proj2 (Nat.eqb_eq _ _) H). reflexivity.
Qed.


(** X9: [norm] raises ZeroDivisionError for a maximum of 0, before it draws
    any random number. *)
Theorem norm_zero_maximum :
  forall minimum period ones t s,
    norm 0 minimum period ones t s = (Err ZeroDivisionError, s).
Proof. intros. reflexivity. Qed.

(** X10: [norm] called with a series [t] draws no random number and changes
    nothing; for a non-zero maximum and a series as long as [ones] it
    returns the series scaled entry by entry by [ones[i] * (1 / maximum)]. *)
Theorem norm_of_given_series :
  forall maximum minimum period ones t s,
    snd (norm maximum minimum period ones (Some t) s) = s
    /\ (maximum <> 0%Z -> length t = length ones ->
        fst (norm maximum minimum period ones (Some t) s)
        = Ok (zip_with num_mul t
                (map (fun o => num_mul o (Fin (/ inject_Z maximum)%Q)) ones))).
Proof.
  intros maximum minimum period ones t s. unfold norm, bind, lift.
  destruct (py_reciprocal (Fin (inject_Z maximum))) as [inv|e] eqn:E.
  - split; [destruct (np.multiply _ _); reflexivity|]. intros Hm Hlen. simpl.
    unfold py_reciprocal in E.
    destruct (Qeq_bool (inject_Z maximum) 0) eqn:Hz.
    + apply Qeq_bool_iff in Hz. unfold Qeq in Hz. simpl in Hz. lia.
    + inversion E; subst inv. unfold ret.
      rewrite multiply_same_length; [reflexivity|].
      unfold np.scale. rewrite length_map. exact Hlen.
  - split; [reflexivity|]. intros Hm _.
    unfold py_reciprocal in E.
    destruct (Qeq_bool (inject_Z maximum) 0) eqn:Hz; [|discriminate].
    apply Qeq_bool_iff in Hz. unfold Qeq in Hz. simpl in Hz. lia.
Qed.

End Norm.

(** *** When [create_hhes_basic] returns *)

Section Returns.
Variable annuity : Q -> nat -> Q -> num.





End Returns.

(** ** Witnesses of the further properties *)

Lemma demo_named_returns :
  is_ok (fst (run_example demo_annuity
                (hhes_basic 99999999999%Q periods None (Some "mine.tsf"))
                (demo_world 100))) = true.
Proof. vm_compute. reflexivity. Qed.

Lemma hhes_basic_period_must_fit_witness :
  exists es w' de col wo,
    create_hhes_basic demo_annuity 99999999999%Q periods None None (demo_world 100)
    = (Ok es, w')
    /\ files (demo_world 100) !! demand_profile "examples" = Some de
    /\ pandas.getitem de "Last (MW)" = Ok col
    /\ files (demo_world 100) !! wind_profile "examples" = Some wo
    /\ periods = Nat.min periods (length col)
    /\ periods = Nat.min periods (length (pandas.values_flatten wo))
    /\ periods <= periods.
Proof.
  destruct (create_hhes_basic demo_annuity 99999999999%Q periods None None
              (demo_world 100)) as [[es|e] w'] eqn:E.
  - destruct (hhes_basic_period_must_fit demo_annuity _ _ _ _ _ es w' E)
      as (de & col & wo & H).
    exists es, w', de, col, wo. split; [reflexivity | exact H].
  - pose proof demo_basic_returns as H. unfold hhes_basic_default in H.
    cbn [run_example] in H. rewrite E in H. discriminate.
Defined.

Lemma hhes_basic_labels_and_limits_witness :
  exists es w',
    create_hhes_basic demo_annuity 99999999999%Q periods None None (demo_world 100)
    = (Ok es, w')
    /\ uid es = None
    /\ constraint es "emissions" = Some (VNum 99999999999%Q)
    /\ constraint es "resources" = Some (VNum PosInf)
    /\ constraint es "name" = Some (VStr "hhes_basic")
    /\ timeframe es = pd.date_range "1/1/2019" periods "H"
    /\ pandas.len (timeframe es) = periods.
Proof.
  destruct (create_hhes_basic demo_annuity 99999999999%Q periods None None
              (demo_world 100)) as [[es|e] w'] eqn:E.
  - exists es, w'. split; [reflexivity|].
    exact (hhes_basic_labels_and_limits demo_annuity _ _ _ _ _ es w' E).
  - pose proof demo_basic_returns as H. unfold hhes_basic_default in H.
    cbn [run_example] in H. rewrite E in H. discriminate.
Defined.

Lemma hhes_basic_given_filename_is_used_witness :
  exists es w',
    create_hhes_basic demo_annuity 99999999999%Q periods None (Some "mine.tsf")
      (demo_world 100) = (Ok es, w')
    /\ storage w' !! ("write/tsf", "mine.tsf") = Some es
    /\ uid es = Some "mine.tsf".
Proof.
  destruct (create_hhes_basic demo_annuity 99999999999%Q periods None
              (Some "mine.tsf") (demo_world 100)) as [[es|e] w'] eqn:E.
  - exists es, w'. split; [reflexivity|].
    apply (hhes_basic_given_filename_is_used demo_annuity 99999999999%Q periods
             None "mine.tsf" (demo_world 100) es w'); [discriminate | exact E].
  - pose proof demo_named_returns as H.
    cbn [run_example] in H. rewrite E in H. discriminate.
Defined.


Lemma hhes_basic_demand_profile_errors_witness :
  create_hhes_basic demo_annuity 99999999999%Q periods None None bare_world
  = (Err IOError, bare_world)
  /\ create_hhes_basic demo_annuity 99999999999%Q periods None None misnamed_world
     = (Err KeyError, misnamed_world).
Proof.
  split.
  - apply (proj1 (hhes_basic_demand_profile_errors demo_annuity _ _ _ _ bare_world)).
    reflexivity.
  - apply (proj2 (hhes_basic_demand_profile_errors demo_annuity _ _ _ _
                    misnamed_world)
             (profile 3 "load" (fun k => inject_Z (Z.of_nat k)))).
    + vm_compute. reflexivity.
    + intros H. apply list_elem_of_In in H. simpl in H.
      destruct H as [H | []]. discriminate.
Defined.

Lemma hhes_ar_missing_solar_profile_witness :
  create_hhes_ar demo_annuity 24 None None bare_world = (Err IOError, bare_world).
Proof.
  apply hhes_ar_missing_solar_profile. reflexivity.
Defined.

Lemma norm_of_given_series_witness :
  fst (norm 4 0 2 (np.ones 2) (Some [Fin 2%Q; Fin 4%Q]) two_arrays)
  = Ok (zip_with num_mul [Fin 2%Q; Fin 4%Q]
          (map (fun o => num_mul o (Fin (/ inject_Z 4)%Q)) (np.ones 2))).
Proof.
  apply (proj2 (norm_of_given_series 4 0 2 (np.ones 2) [Fin 2%Q; Fin 4%Q]
                  two_arrays)).
  - discriminate.
  - reflexivity.
Defined.


